(** * ml_dz1: a three-process metric pipeline over RabbitMQ

    The repository holds three scripts:
    - [features/src/features.py]: the producer; each tick it draws a row of
      the diabetes dataset and publishes the target to queue [y_true] and
      the feature vector to queue [features], both under one id;
    - [metric/src/metric.py]: the correlator; [process_message] joins the
      messages of queues [y_true] and [y_pred] by id in the global dict
      [data] and appends [id,y_true,y_pred,error] rows to a CSV file;
    - [plot.py]: the visualizer; it re-reads a CSV file every ten seconds.

    The scripts are embedded as functions over an explicit state. The
    interpreter and library primitives they call (truthiness, [dict.get],
    hashing of dict keys, [-], [abs], f-string rendering, [os.path.join])
    are given by small executable models in module [Py]. The libraries
    proper are parameters of the embedded functions: [json.loads] and
    [json.dumps], the dataset, and the calls of pandas and matplotlib;
    module [Json] supplies a reference decoder and encoder to run the
    functions on concrete payloads. What the environment decides (whether
    the file system takes a write, which row is drawn, what the clock
    says) is an argument of the function it affects. *)

From Stdlib Require Import ZArith Floats Strings.Byte Ascii String List Bool Lia.
From Stdlib Require Import DecimalString.
From stdpp Require Import gmap strings list.

Set Warnings "-register-all".
Local Open Scope Z_scope.

(** ** Python values, exceptions and primitives *)

Module Py.

(** The values [json.loads] can produce. A [str] is kept as its UTF-8
    bytes; a [dict] has string keys, kept in insertion order. *)
Inductive pyval : Type :=
| PNone
| PBool (b : bool)
| PInt (z : Z)
| PFloat (f : float)
| PStr (s : string)
| PList (l : list pyval)
| PDict (d : list (string * pyval)).

(** Exception classes met in the scripts. Every one of them derives from
    [Exception]; the [BaseException]-only signals (KeyboardInterrupt,
    SystemExit) are delivered asynchronously and are not raised by any
    statement of the handler. *)
Inductive exn : Type :=
| JSONDecodeError
| UnicodeDecodeError
| UnicodeEncodeError
| RecursionError
| ValueError
| AttributeError
| TypeError
| KeyError
| IndexError
| OverflowError
| OSError.

(** The classes named in the [except] clauses of the scripts. *)
Inductive exn_class : Type :=
| CJSONDecodeError
| CException.

(** [isinstance e cls]: only a JSONDecodeError is an instance of
    [json.JSONDecodeError]. *)
Definition isinstance (e : exn) (cls : exn_class) : bool :=
  match cls, e with
  | CException, _ => true
  | CJSONDecodeError, JSONDecodeError => true
  | CJSONDecodeError, _ => false
  end.

(** A statement either completes with a value or raises. *)
Inductive result (A : Type) : Type :=
| Ok (a : A)
| Raise (e : exn).
Arguments Ok {A} a.
Arguments Raise {A} e.

Definition bind {A B} (r : result A) (k : A -> result B) : result B :=
  match r with
  | Ok a => k a
  | Raise e => Raise e
  end.

Notation "'do' x <- r ; k" := (bind r (fun x => k))
  (at level 10, x name, r at level 100, k at level 200).

(** A statement of a script runs on the script's state [S] and completes
    or raises; what it changed before an exception stays changed. *)
Definition M (S A : Type) : Type := S -> result A * S.

Definition ret {S A} (a : A) : M S A := fun st => (Ok a, st).

Definition raise {S A} (e : exn) : M S A := fun st => (Raise e, st).

Definition lift {S A} (r : result A) : M S A := fun st => (r, st).

Definition mbind {S A B} (m : M S A) (k : A -> M S B) : M S B :=
  fun st =>
    match m st with
    | (Ok a, st') => k a st'
    | (Raise e, st') => (Raise e, st')
    end.

Declare Scope handler_scope.
Delimit Scope handler_scope with handler.
Notation "'run' x <- m ; k" := (mbind m (fun x => k))
  (at level 10, x name, m at level 100, k at level 200) : handler_scope.

(** [try: body except C1 as e: h1 ... except Cn as e: hn]: the first
    clause whose class the exception is an instance of handles it; an
    exception of no listed class goes on to the caller. *)
Definition try_except {S A} (body : M S A)
    (handlers : list (exn_class * (exn -> M S A))) : M S A :=
  fun st =>
    match body st with
    | (Ok a, st') => (Ok a, st')
    | (Raise e, st') =>
        match List.find (fun h => isinstance e (fst h)) handlers with
        | Some h => snd h e st'
        | None => (Raise e, st')
        end
    end.

(** [bool(v)]. *)
Definition truthy (v : pyval) : bool :=
  match v with
  | PNone => false
  | PBool b => b
  | PInt z => negb (z =? 0)
  | PFloat f => negb (PrimFloat.eqb f PrimFloat.zero)
  | PStr s => negb (String.eqb s "")
  | PList l => match l with [] => false | _ => true end
  | PDict d => match d with [] => false | _ => true end
  end.

(** [v is None]. *)
Definition is_None (v : pyval) : bool :=
  match v with PNone => true | _ => false end.

(** [v == 0] for the values a JSON number or boolean can take. *)
Definition eq_zero (v : pyval) : bool :=
  match v with
  | PBool b => negb b
  | PInt z => z =? 0
  | PFloat f => PrimFloat.eqb f PrimFloat.zero
  | _ => false
  end.

(** Lookup in the association list of a [dict]. *)
Fixpoint assoc (k : string) (d : list (string * pyval)) : option pyval :=
  match d with
  | [] => None
  | (k', v) :: d' => if String.eqb k k' then Some v else assoc k d'
  end.

(** [d[k] = v] on a [dict]: replace in place, or append. *)
Fixpoint assoc_set (k : string) (v : pyval) (d : list (string * pyval))
  : list (string * pyval) :=
  match d with
  | [] => [(k, v)]
  | (k', v') :: d' =>
      if String.eqb k k' then (k, v) :: d' else (k', v') :: assoc_set k v d'
  end.

(** [message.get(k)]: only a [dict] has the method; a missing key
    gives [None]. *)
Definition get (message : pyval) (k : string) : result pyval :=
  match message with
  | PDict d => Ok (default PNone (assoc k d))
  | _ => Raise AttributeError
  end.

(** *** Numbers *)

(** [float(z)] as the interpreter converts an [int] operand of a mixed
    operation: round to nearest even, OverflowError beyond the range. *)
Definition float_of_int (z : Z) : result float :=
  match binary_normalize prec emax z 0 false with
  | S754_infinity _ => Raise OverflowError
  | sf => Ok (SF2Prim sf)
  end.

Inductive number : Type :=
| NInt (z : Z)
| NFloat (f : float).

(** The numeric tower: [bool] is a subclass of [int]. *)
Definition as_number (v : pyval) : option number :=
  match v with
  | PBool b => Some (NInt (Z.b2z b))
  | PInt z => Some (NInt z)
  | PFloat f => Some (NFloat f)
  | _ => None
  end.

(** [a - b]. *)
Definition sub (a b : pyval) : result pyval :=
  match as_number a, as_number b with
  | Some (NInt x), Some (NInt y) => Ok (PInt (x - y))
  | Some (NInt x), Some (NFloat g) =>
      do f <- float_of_int x; Ok (PFloat (PrimFloat.sub f g))
  | Some (NFloat f), Some (NInt y) =>
      do g <- float_of_int y; Ok (PFloat (PrimFloat.sub f g))
  | Some (NFloat f), Some (NFloat g) => Ok (PFloat (PrimFloat.sub f g))
  | _, _ => Raise TypeError
  end.

(** [abs(v)]. *)
Definition abs (v : pyval) : result pyval :=
  match as_number v with
  | Some (NInt x) => Ok (PInt (Z.abs x))
  | Some (NFloat f) => Ok (PFloat (PrimFloat.abs f))
  | None => Raise TypeError
  end.

(** *** Dict keys *)

(** A hashable value up to the equality a [dict] uses for its keys:
    [True == 1 == 1.0] is one key, kept as the integer; a float that is
    not an integer is kept by sign, mantissa and exponent. Every NaN that
    [json.loads] returns is one object (the decoder's constant), found
    again by identity, hence the single [KNaN]. *)
Inductive dkey : Type :=
| KNone
| KInt (z : Z)
| KFrac (s : bool) (m : positive) (e : Z)
| KInf (s : bool)
| KNaN
| KStr (s : string).

Definition float_key (f : float) : dkey :=
  match Prim2SF f with
  | S754_zero _ => KInt 0
  | S754_infinity s => KInf s
  | S754_nan => KNaN
  | S754_finite s m e =>
      let sgn := if s then -1 else 1 in
      if 0 <=? e then KInt (sgn * (Z.pos m * 2 ^ e))
      else if Z.pos m mod 2 ^ (- e) =? 0
           then KInt (sgn * (Z.pos m / 2 ^ (- e)))
           else KFrac s m e
  end.

(** [hash(v)] succeeds on scalars and strings; a [list] or a [dict] is
    unhashable. *)
Definition key_of (v : pyval) : result dkey :=
  match v with
  | PNone => Ok KNone
  | PBool b => Ok (KInt (Z.b2z b))
  | PInt z => Ok (KInt z)
  | PFloat f => Ok (float_key f)
  | PStr s => Ok (KStr s)
  | PList _ | PDict _ => Raise TypeError
  end.

(** [dkey] is a key type for finite maps. *)
#[global] Instance dkey_eq_dec : EqDecision dkey.
Proof. solve_decision. Defined.

Definition dkey_code (k : dkey)
  : unit + Z + (bool * positive * Z) + bool + string :=
  match k with
  | KNone => inl (inl (inl (inl tt)))
  | KInt z => inl (inl (inl (inr z)))
  | KFrac s m e => inl (inl (inr (s, m, e)))
  | KInf s => inl (inr s)
  | KNaN => inr "nan"
  | KStr s => inr (String "s" s)
  end.

Definition dkey_of_code (c : unit + Z + (bool * positive * Z) + bool + string)
  : dkey :=
  match c with
  | inl (inl (inl (inl _))) => KNone
  | inl (inl (inl (inr z))) => KInt z
  | inl (inl (inr (s, m, e))) => KFrac s m e
  | inl (inr s) => KInf s
  | inr (String "s" s) => KStr s
  | inr _ => KNaN
  end.

#[global] Instance dkey_countable : Countable dkey.
Proof.
  refine (inj_countable' dkey_code dkey_of_code _).
  intros []; reflexivity.
Defined.

(** *** Rendering inside an f-string *)

Definition nl : string := String (ascii_of_nat 10) EmptyString.

Definition str_of_Z (z : Z) : string := NilZero.string_of_int (Z.to_int z).

Fixpoint zeros (n : nat) : string :=
  match n with
  | O => EmptyString
  | S n' => String "0" (zeros n')
  end.

(** Sign of [c * 10^k - v * 2^e], for integers [c], [v] and any [k], [e]. *)
Definition cmp_scaled (c k v e : Z) : comparison :=
  (c * 10 ^ Z.max k 0 * 2 ^ Z.max (- e) 0
   ?= v * 2 ^ Z.max e 0 * 10 ^ Z.max (- k) 0).

(** [c * 10^k] reads back as the float [m * 2^e]: it lies between the
    midpoints to the two neighbours, the midpoints themselves included
    when [m] is even (ties go to the even mantissa). In units of
    [2^(e-2)] the float is [4m], the upper midpoint [4m+2], the lower one
    [4m-2], or [4m-1] just above a power of two. *)
Definition reads_back (m e c k : Z) : bool :=
  let below := if (m =? 2 ^ 52) && (-1074 <? e) then 1 else 2 in
  let lo := cmp_scaled c k (4 * m - below) (e - 2) in
  let hi := cmp_scaled c k (4 * m + 2) (e - 2) in
  match lo, hi with
  | Gt, Lt => true
  | Eq, _ | _, Eq => Z.even m
  | _, _ => false
  end.

(** The shortest decimal [c * 10^k] that reads back as [m * 2^e], the
    nearest one among the shortest: [k] goes down from a bound until the
    integer below or above [m * 2^e / 10^k] qualifies. *)
Fixpoint shortest (fuel : nat) (m e k : Z) : Z * Z :=
  let num := 4 * m * 2 ^ Z.max (e - 2) 0 * 10 ^ Z.max (- k) 0 in
  let den := 10 ^ Z.max k 0 * 2 ^ Z.max (2 - e) 0 in
  let c := num / den in
  let down := (0 <? c) && reads_back m e c k in
  let up := reads_back m e (c + 1) k in
  let nearer_down :=
    match cmp_scaled (2 * c + 1) k (8 * m) (e - 2) with
    | Gt => true
    | Eq => Z.even c
    | Lt => false
    end in
  match fuel with
  | O => (c, k)
  | S fuel' =>
      if down && (negb up || nearer_down) then (c, k)
      else if up then (c + 1, k)
      else shortest fuel' m e (k - 1)
  end.

(** A power of ten above every float of exponent [e]: with 53 bits of
    mantissa the float is below [2^(e+53)], and [log10 2 < 0.30103]. *)
Definition decimal_bound (e : Z) : Z := (e + 53) * 30103 / 100000 + 2.

(** [repr] of a positive finite float from its shortest digits [ds] and
    the position [decpt] of the decimal point: positional notation when
    [-4 < decpt <= 16], else scientific with a two-digit exponent. *)
Definition layout (ds : string) (decpt : Z) : string :=
  let n := Z.of_nat (String.length ds) in
  if (-4 <? decpt) && (decpt <=? 16) then
    if decpt <=? 0 then "0." +:+ zeros (Z.to_nat (- decpt)) +:+ ds
    else if n <=? decpt then ds +:+ zeros (Z.to_nat (decpt - n)) +:+ ".0"
    else substring 0 (Z.to_nat decpt) ds +:+ "."
         +:+ substring (Z.to_nat decpt) (Z.to_nat (n - decpt)) ds
  else
    let x := decpt - 1 in
    let xs := str_of_Z (Z.abs x) in
    substring 0 1 ds
    +:+ (if 1 <? n then "." +:+ substring 1 (Z.to_nat (n - 1)) ds else "")
    +:+ "e" +:+ (if x <? 0 then "-" else "+")
    +:+ (if Z.abs x <? 10 then "0" else "") +:+ xs.

(** [repr(f)] for a [float]: the shortest string that reads back. *)
Definition float_repr (f : float) : string :=
  match Prim2SF f with
  | S754_zero s => if s then "-0.0" else "0.0"
  | S754_infinity s => if s then "-inf" else "inf"
  | S754_nan => "nan"
  | S754_finite s m e =>
      let '(c, k) := shortest 1400 (Z.pos m) e (decimal_bound e) in
      let ds := str_of_Z c in
      (if s then "-" else "")
      +:+ layout ds (Z.of_nat (String.length ds) + k)
  end.

(** [sys.int_info.default_max_str_digits]: the most digits an [int] can
    have for the interpreter to convert it to a string. *)
Definition max_str_digits : Z := 4300.

(** [format(v, '')], what an f-string field [{v}] renders, for scalars
    and strings. An [int] of more than [max_str_digits] digits, the sign
    not counted, raises ValueError. A container has no rendering here:
    none reaches the f-string of the correlator (see
    [Metric.log_error_to_csv]). *)
Definition str (v : pyval) : option (result string) :=
  match v with
  | PNone => Some (Ok "None")
  | PBool b => Some (Ok (if b then "True" else "False"))
  | PInt z =>
      Some (if max_str_digits <? Z.of_nat (String.length (str_of_Z (Z.abs z)))
            then Raise ValueError else Ok (str_of_Z z))
  | PFloat f => Some (Ok (float_repr f))
  | PStr s => Some (Ok s)
  | PList _ | PDict _ => None
  end.

(** Every character of [s] passes [p]. *)
Fixpoint string_forall (p : ascii -> bool) (s : string) : bool :=
  match s with
  | EmptyString => true
  | String c r => p c && string_forall p r
  end.

(** A [str] holds a surrogate code point: kept as UTF-8 bytes, it has
    the three bytes [ED A0..BF 80..BF] that no other character has. A
    decoder makes one of the escape of a lone surrogate. *)
Fixpoint has_surrogate (s : string) : bool :=
  match s with
  | String a r =>
      match r with
      | String b _ =>
          (Nat.eqb (nat_of_ascii a) 237 && (160 <=? nat_of_ascii b)%nat
           && (nat_of_ascii b <=? 191)%nat)
          || has_surrogate r
      | EmptyString => false
      end
  | EmptyString => false
  end.

(** [s.encode('utf-8')], what the text layer of a file opened with
    [encoding='utf-8'] does to the text it is given: a surrogate raises
    UnicodeEncodeError. *)
Definition encode (s : string) : result string :=
  if has_surrogate s then Raise UnicodeEncodeError else Ok s.

(** *** Paths *)

(** The two flavours of [os.path]: [posixpath] and [ntpath]. *)
Inductive os_name : Type :=
| Posix
| Nt.

Definition backslash : ascii := ascii_of_nat 92.

Definition is_sep (os : os_name) (c : ascii) : bool :=
  match os with
  | Posix => Ascii.eqb c "/"
  | Nt => Ascii.eqb c "/" || Ascii.eqb c backslash
  end.

Definition last_char (s : string) : option ascii :=
  match String.length s with
  | O => None
  | S n => String.get n s
  end.

Definition ends_with_sep (os : os_name) (s : string) : bool :=
  match last_char s with
  | Some c => is_sep os c
  | None => false
  end.

Definition starts_with_sep (os : os_name) (s : string) : bool :=
  match s with
  | String c _ => is_sep os c
  | EmptyString => false
  end.

(** [ntpath.splitroot] for drive-letter paths: the drive [X:], the root
    separator, the rest (UNC and device prefixes do not occur in the
    scripts and are left undivided). *)
Definition splitroot (p : string) : string * string * string :=
  let '(drive, rest) :=
    match p with
    | String c (String ":" r) => (String c ":", r)
    | _ => (EmptyString, p)
    end in
  match rest with
  | String c r => if is_sep Nt c then (drive, String c EmptyString, r)
                  else (drive, EmptyString, rest)
  | EmptyString => (drive, EmptyString, EmptyString)
  end.

Fixpoint string_map (f : ascii -> ascii) (s : string) : string :=
  match s with
  | EmptyString => EmptyString
  | String c r => String (f c) (string_map f r)
  end.

Definition lower (s : string) : string :=
  string_map (fun c =>
    let n := nat_of_ascii c in
    if (65 <=? n)%nat && (n <=? 90)%nat then ascii_of_nat (n + 32) else c) s.

(** [os.path.join(a, b)]. *)
Definition os_path_join (os : os_name) (a b : string) : string :=
  match os with
  | Posix =>
      if starts_with_sep Posix b then b
      else if String.eqb a "" || ends_with_sep Posix a then a +:+ b
      else a +:+ "/" +:+ b
  | Nt =>
      let '(a_drive, a_root, a_path) := splitroot a in
      let '(b_drive, b_root, b_path) := splitroot b in
      if negb (String.eqb b_root "") then
        (if negb (String.eqb b_drive "") || String.eqb a_drive ""
         then b_drive else a_drive) +:+ b_root +:+ b_path
      else if negb (String.eqb b_drive "")
              && negb (String.eqb (lower b_drive) (lower a_drive))
      then b_drive +:+ b_root +:+ b_path
      else
        let drive := if String.eqb b_drive "" then a_drive else b_drive in
        let path : string :=
          if negb (String.eqb a_path "") && negb (ends_with_sep Nt a_path)
          then a_path +:+ String backslash EmptyString else a_path in
        drive +:+ a_root +:+ path +:+ b_path
  end.

(** The names a path walks through, separators dropped: two paths with
    different components name different directory entries. *)
Fixpoint components_aux (os : os_name) (cur : string) (p : string)
  : list string :=
  let flush := if String.eqb cur "" then [] else [cur] in
  match p with
  | EmptyString => flush
  | String c r =>
      if is_sep os c then flush ++ components_aux os EmptyString r
      else components_aux os (cur +:+ String c EmptyString) r
  end.

Definition components (os : os_name) (p : string) : list string :=
  components_aux os EmptyString p.

End Py.

(** ** A reference decoder for [json.loads]

    The decoder of the [json] module on a UTF-8 payload: the grammar of
    its scanner (the constants [NaN], [Infinity] and [-Infinity]
    included), an integer literal read as an [int] (ValueError, not a
    JSONDecodeError, beyond [max_str_digits] digits), a literal with a
    fraction or an exponent read as the nearest [float], a
    repeated key keeping its last value. Bytes above 127 are kept as they
    are inside strings. Not covered: payloads in UTF-16 or UTF-32, the
    check that the payload is valid UTF-8, and the interpreter's limit on
    nesting depth. *)

Module Json.
Import Py.

Definition is_ws (c : ascii) : bool :=
  let n := nat_of_ascii c in
  Nat.eqb n 32 || Nat.eqb n 9 || Nat.eqb n 10 || Nat.eqb n 13.

Fixpoint skip_ws (s : string) : string :=
  match s with
  | String c r => if is_ws c then skip_ws r else s
  | EmptyString => s
  end.

Definition digit_of (c : ascii) : option Z :=
  let n := Z.of_nat (nat_of_ascii c) in
  if (48 <=? n) && (n <=? 57) then Some (n - 48) else None.

Definition hex_of (c : ascii) : option Z :=
  let n := Z.of_nat (nat_of_ascii c) in
  if (48 <=? n) && (n <=? 57) then Some (n - 48)
  else if (97 <=? n) && (n <=? 102) then Some (n - 87)
  else if (65 <=? n) && (n <=? 70) then Some (n - 55)
  else None.

(** The longest run of digits at the head of [s]: its value, its length,
    the rest. *)
Fixpoint digits (s : string) (acc : Z) (len : Z) : Z * Z * string :=
  match s with
  | String c r =>
      match digit_of c with
      | Some d => digits r (10 * acc + d) (len + 1)
      | None => (acc, len, s)
      end
  | EmptyString => (acc, len, s)
  end.

(** [float] of the decimal [d * 10^e10], [d >= 0]: the nearest binary64
    value, ties to even; [inf] beyond the range. A quotient is cut with
    more than 64 bits and a sticky bit before it is rounded. *)
Definition float_of_decimal (neg : bool) (d e10 : Z) : float :=
  let sgn := if neg then -1 else 1 in
  let nd := Z.of_nat (String.length (str_of_Z d)) in
  if d =? 0 then (if neg then PrimFloat.neg_zero else PrimFloat.zero)
  else if 310 <? nd + e10 then (if neg then PrimFloat.neg_infinity else PrimFloat.infinity)
  else if nd + e10 <? -330 then (if neg then PrimFloat.neg_zero else PrimFloat.zero)
  else if 0 <=? e10
  then SF2Prim (binary_normalize prec emax (sgn * (d * 10 ^ e10)) 0 neg)
  else
    let den := 10 ^ (- e10) in
    let s := Z.max 0 (Z.log2 den + 66 - Z.log2 d) in
    let q := d * 2 ^ s / den in
    let sticky := if (d * 2 ^ s) mod den =? 0 then 0 else 1 in
    SF2Prim (binary_normalize prec emax (sgn * (2 * q + sticky)) (- s - 1) neg).

(** The exponent of a number literal, when [s] starts with one. *)
Definition exponent_at (s : string) : option (Z * string) :=
  match s with
  | String e r =>
      if Ascii.eqb e "e" || Ascii.eqb e "E" then
        let '(eneg, r1) :=
          match r with
          | String "-" t => (true, t)
          | String "+" t => (false, t)
          | _ => (false, r)
          end in
        let '(x, n, r2) := digits r1 0 0 in
        if 0 <? n then Some (if eneg then - x else x, r2) else None
      else None
  | EmptyString => None
  end.

(** The fraction of a number literal, when [s] starts with one: its
    digits as an integer, and how many they are. *)
Definition fraction_at (s : string) : option (Z * Z * string) :=
  match s with
  | String "." r =>
      let '(f, n, r1) := digits r 0 0 in
      if 0 <? n then Some (f, n, r1) else None
  | _ => None
  end.

(** A number at the head of [s], after the optional sign: the integer
    part is [0] or starts with another digit; a fraction needs a digit
    after the point and an exponent a digit after its sign, else the
    literal ends before them. *)
Definition number_at (neg : bool) (s : string) : result (pyval * string) :=
  match s with
  | String c r =>
      match digit_of c with
      | None => Raise JSONDecodeError
      | Some d0 =>
          let '(i, len, r1) := if d0 =? 0 then (0, 1, r) else digits r d0 1 in
          let frac := fraction_at r1 in
          let r2 := match frac with Some (_, _, t) => t | None => r1 end in
          let ex := exponent_at r2 in
          let r3 := match ex with Some (_, t) => t | None => r2 end in
          match frac, ex with
          | None, None =>
              if max_str_digits <? len then Raise ValueError
              else Ok (PInt (if neg then - i else i), r3)
          | _, _ =>
              let '(f, n) :=
                match frac with Some (f, n, _) => (f, n) | None => (0, 0) end in
              let x := match ex with Some (x, _) => x | None => 0 end in
              Ok (PFloat (float_of_decimal neg (i * 10 ^ n + f) (x - n)), r3)
          end
      end
  | EmptyString => Raise JSONDecodeError
  end.

(** UTF-8 bytes of a code point (a lone surrogate keeps its three-byte
    form). *)
Definition utf8 (cp : Z) : string :=
  let b (n : Z) := String (ascii_of_nat (Z.to_nat n)) EmptyString in
  if cp <? 128 then b cp
  else if cp <? 2048 then b (192 + cp / 64) +:+ b (128 + cp mod 64)
  else if cp <? 65536
  then b (224 + cp / 4096) +:+ b (128 + cp / 64 mod 64) +:+ b (128 + cp mod 64)
  else b (240 + cp / 262144) +:+ b (128 + cp / 4096 mod 64)
       +:+ b (128 + cp / 64 mod 64) +:+ b (128 + cp mod 64).

Definition hex4 (s : string) : option (Z * string) :=
  match s with
  | String a (String b (String c (String d r))) =>
      match hex_of a, hex_of b, hex_of c, hex_of d with
      | Some x, Some y, Some z, Some w =>
          Some (((x * 16 + y) * 16 + z) * 16 + w, r)
      | _, _, _, _ => None
      end
  | _ => None
  end.

(** The low half of a surrogate pair written as a second escape. *)
Definition low_surrogate_at (s : string) : option (Z * string) :=
  match s with
  | String b1 (String "u" t) =>
      if Nat.eqb (nat_of_ascii b1) 92 then
        match hex4 t with
        | Some (l, t1) =>
            if (56320 <=? l) && (l <=? 57343) then Some (l, t1) else None
        | None => None
        end
      else None
  | _ => None
  end.

(** The code point of an escape [uXXXX], a surrogate pair joined. *)
Definition unicode_escape_at (s : string) : option (Z * string) :=
  match hex4 s with
  | None => None
  | Some (u, r) =>
      if (55296 <=? u) && (u <=? 56319) then
        match low_surrogate_at r with
        | Some (l, r1) => Some (65536 + (u - 55296) * 1024 + (l - 56320), r1)
        | None => Some (u, r)
        end
      else Some (u, r)
  end.

(** The character a one-letter escape stands for. *)
Definition simple_escape (e : ascii) : option nat :=
  if Ascii.eqb e "b" then Some 8%nat
  else if Ascii.eqb e "f" then Some 12%nat
  else if Ascii.eqb e "n" then Some 10%nat
  else if Ascii.eqb e "r" then Some 13%nat
  else if Ascii.eqb e "t" then Some 9%nat
  else if Ascii.eqb e "/" then Some 47%nat
  else if Nat.eqb (nat_of_ascii e) 92 then Some 92%nat
  else if Nat.eqb (nat_of_ascii e) 34 then Some 34%nat
  else None.

(** The characters of a string literal after its opening quote, up to
    the closing quote; a control character ends the decoding. *)
Fixpoint string_at (fuel : nat) (s : string) (acc : string)
  : result (string * string) :=
  match fuel with
  | O => Raise JSONDecodeError
  | S fuel' =>
      match s with
      | EmptyString => Raise JSONDecodeError
      | String c r =>
          let n := nat_of_ascii c in
          if Nat.eqb n 34 then Ok (acc, r)
          else if (n <? 32)%nat then Raise JSONDecodeError
          else if Nat.eqb n 92 then
            match r with
            | String e r1 =>
                match simple_escape e with
                | Some k =>
                    string_at fuel' r1
                      (acc +:+ String (ascii_of_nat k) EmptyString)
                | None =>
                    if Ascii.eqb e "u" then
                      match unicode_escape_at r1 with
                      | Some (cp, r2) => string_at fuel' r2 (acc +:+ utf8 cp)
                      | None => Raise JSONDecodeError
                      end
                    else Raise JSONDecodeError
                end
            | EmptyString => Raise JSONDecodeError
            end
          else string_at fuel' r (acc +:+ String c EmptyString)
      end
  end.

Definition strip_prefix (p s : string) : option string :=
  if String.prefix p s
  then Some (substring (String.length p) (String.length s - String.length p) s)
  else None.

Definition quote : ascii := ascii_of_nat 34.

(** A constant of the scanner at the head of [s]. *)
Definition constant_at (s : string) : option (pyval * string) :=
  match strip_prefix "null" s, strip_prefix "true" s,
        strip_prefix "false" s, strip_prefix "NaN" s,
        strip_prefix "Infinity" s, strip_prefix "-Infinity" s with
  | Some r, _, _, _, _, _ => Some (PNone, r)
  | _, Some r, _, _, _, _ => Some (PBool true, r)
  | _, _, Some r, _, _, _ => Some (PBool false, r)
  | _, _, _, Some r, _, _ => Some (PFloat PrimFloat.nan, r)
  | _, _, _, _, Some r, _ => Some (PFloat PrimFloat.infinity, r)
  | _, _, _, _, _, Some r => Some (PFloat PrimFloat.neg_infinity, r)
  | _, _, _, _, _, _ => None
  end.

(** One JSON value at the head of [s], and what follows it. *)
Fixpoint value_at (fuel : nat) (s : string) : result (pyval * string) :=
  match fuel with
  | O => Raise RecursionError
  | S fuel' =>
      match s with
      | EmptyString => Raise JSONDecodeError
      | String c r =>
          if Ascii.eqb c quote then
            do p <- string_at (String.length s) r EmptyString;
            Ok (PStr (fst p), snd p)
          else if Ascii.eqb c "{" then
            match skip_ws r with
            | String "}" r1 => Ok (PDict [], r1)
            | r1 => members_at fuel' r1 []
            end
          else if Ascii.eqb c "[" then
            match skip_ws r with
            | String "]" r1 => Ok (PList [], r1)
            | r1 => elements_at fuel' r1 []
            end
          else
            match constant_at s with
            | Some p => Ok p
            | None => if Ascii.eqb c "-" then number_at true r
                      else number_at false s
            end
      end
  end
with elements_at (fuel : nat) (s : string) (acc : list pyval)
  : result (pyval * string) :=
  match fuel with
  | O => Raise RecursionError
  | S fuel' =>
      do p <- value_at fuel' s;
      match skip_ws (snd p) with
      | String "," r => elements_at fuel' (skip_ws r) (acc ++ [fst p])
      | String "]" r => Ok (PList (acc ++ [fst p]), r)
      | _ => Raise JSONDecodeError
      end
  end
with members_at (fuel : nat) (s : string) (acc : list (string * pyval))
  : result (pyval * string) :=
  match fuel with
  | O => Raise RecursionError
  | S fuel' =>
      match s with
      | String c r =>
          if Ascii.eqb c quote then
            do k <- string_at (String.length s) r EmptyString;
            match skip_ws (snd k) with
            | String ":" r1 =>
                do p <- value_at fuel' (skip_ws r1);
                match skip_ws (snd p) with
                | String "," r2 =>
                    members_at fuel' (skip_ws r2)
                      (assoc_set (fst k) (fst p) acc)
                | String "}" r2 =>
                    Ok (PDict (assoc_set (fst k) (fst p) acc), r2)
                | _ => Raise JSONDecodeError
                end
            | _ => Raise JSONDecodeError
            end
          else Raise JSONDecodeError
      | EmptyString => Raise JSONDecodeError
      end
  end.

Definition strip_bom (s : string) : string :=
  match s with
  | String a (String b (String c r)) =>
      if Nat.eqb (nat_of_ascii a) 239 && Nat.eqb (nat_of_ascii b) 187
         && Nat.eqb (nat_of_ascii c) 191
      then r else s
  | _ => s
  end.

(** [json.loads(body)]: one value between optional white space, nothing
    after it. *)
Definition loads (body : list Byte.byte) : result pyval :=
  let s := strip_bom (string_of_list_byte body) in
  do p <- value_at (2 * String.length s + 2) (skip_ws s);
  match skip_ws (snd p) with
  | EmptyString => Ok (fst p)
  | _ => Raise JSONDecodeError
  end.

(** A payload written with an apostrophe for each quote character. *)
Definition payload (s : string) : list Byte.byte :=
  list_byte_of_string
    (string_map (fun c => if Ascii.eqb c "'" then quote else c) s).

(** ** A reference encoder for [json.dumps]

    The encoder of the [json] module with its defaults: [", "] and
    [": "] as separators, a float by its [repr] (NaN and the infinities
    by their constants), every character of a string outside the
    printable ASCII range escaped. An [int] is written in full: the
    producer, the one caller, encodes floats. *)

Definition hex_digit (n : Z) : string :=
  String (ascii_of_nat (Z.to_nat (if n <? 10 then 48 + n else 87 + n)))
    EmptyString.

Definition u_escape (cu : Z) : string :=
  String backslash "u" +:+ hex_digit (cu / 4096) +:+ hex_digit (cu / 256 mod 16)
  +:+ hex_digit (cu / 16 mod 16) +:+ hex_digit (cu mod 16).

Definition escape (cp : Z) : string :=
  let b (c : ascii) := String backslash (String c EmptyString) in
  if cp =? 34 then b quote
  else if cp =? 92 then b backslash
  else if cp =? 10 then b "n"%char
  else if cp =? 13 then b "r"%char
  else if cp =? 9 then b "t"%char
  else if cp =? 8 then b "b"%char
  else if cp =? 12 then b "f"%char
  else if (32 <=? cp) && (cp <=? 126)
  then String (ascii_of_nat (Z.to_nat cp)) EmptyString
  else if cp <? 65536 then u_escape cp
  else u_escape (55296 + (cp - 65536) / 1024)
       +:+ u_escape (56320 + (cp - 65536) mod 1024).

(** The characters of a string kept as UTF-8, each escaped. *)
Fixpoint escape_all (s : string) : string :=
  let byte (c : ascii) := Z.of_nat (nat_of_ascii c) in
  match s with
  | EmptyString => EmptyString
  | String c0 r0 =>
      let b0 := byte c0 in
      if b0 <? 192 then escape b0 +:+ escape_all r0
      else
        match r0 with
        | EmptyString => escape b0
        | String c1 r1 =>
            let b1 := byte c1 mod 64 in
            if b0 <? 224 then
              escape ((b0 mod 32) * 64 + b1) +:+ escape_all r1
            else
              match r1 with
              | EmptyString => escape b0
              | String c2 r2 =>
                  let b2 := byte c2 mod 64 in
                  if b0 <? 240 then
                    escape (((b0 mod 16) * 64 + b1) * 64 + b2)
                    +:+ escape_all r2
                  else
                    match r2 with
                    | EmptyString => escape b0
                    | String c3 r3 =>
                        escape ((((b0 mod 8) * 64 + b1) * 64 + b2) * 64
                                + byte c3 mod 64)
                        +:+ escape_all r3
                    end
              end
        end
  end.

Definition quoted (s : string) : string :=
  String quote (escape_all s) +:+ String quote EmptyString.

Fixpoint join (l : list string) : string :=
  match l with
  | [] => EmptyString
  | [x] => x
  | x :: r => x +:+ ", " +:+ join r
  end.

Definition float_literal (f : float) : string :=
  match Prim2SF f with
  | S754_nan => "NaN"
  | S754_infinity s => if s then "-Infinity" else "Infinity"
  | _ => float_repr f
  end.

(** [json.dumps(v)]. *)
Fixpoint dumps (v : pyval) : string :=
  match v with
  | PNone => "null"
  | PBool b => if b then "true" else "false"
  | PInt z => str_of_Z z
  | PFloat f => float_literal f
  | PStr s => quoted s
  | PList l => "[" +:+ join (List.map dumps l) +:+ "]"
  | PDict d =>
      "{" +:+ join (List.map (fun kv => let '(k, x) := kv in
                                quoted k +:+ ": " +:+ dumps x) d) +:+ "}"
  end.

End Json.

(** ** The correlator: [metric/src/metric.py] *)

Module Metric.
Import Py.
Local Open Scope handler_scope.

(** [log_dir], line 7. *)
Definition log_dir : string := "D:/lab/logs/logs".

(** What the file system answers when lines 15-17 open the log, write
    the row and close: it grants all three; or it refuses the open; or
    it takes the open and refuses the row, after it kept the first [kept]
    bytes of it. A row that passes the buffers of the file object is
    refused inside [file.write], before line 17; a row that stays in
    them is refused by the close that ends the [with], after line 17. *)
Inductive fs_answer : Type :=
| Granted
| OpenRefused
| WriteRefused (kept : nat)
| CloseRefused (kept : nat).

(** A [bool] stands for the answer that grants everything or refuses the
    open. *)
Definition answer_of_bool (b : bool) : fs_answer :=
  if b then Granted else OpenRefused.
Coercion answer_of_bool : bool >-> fs_answer.

(** A value of the global dict [data]: the inner dict of one id, which
    only ever gets the keys ['y_true'] and ['y_pred']. *)
Record entry : Type := Entry {
  y_true : option pyval;
  y_pred : option pyval
}.

(** The [logging] calls of the script, by the line that makes them. *)
Inductive log_line : Type :=
| InfoRecorded (message_id error : pyval)
| ErrorWrite (e : exn)
| WarningNoId (message : pyval)
| WarningNoValue (message : pyval)
| ErrorDecode (e : exn)
| ErrorHandling (e : exn).

(** What the script can change: the global dict [data], the files (by
    the components of their path, each with its content), and the lines
    handed to [logging]. The journal stands for the file [logging]
    writes (line 9): [files] holds the other files. *)
Record state : Type := State {
  data : gmap dkey entry;
  files : gmap (list string) string;
  journal : list log_line
}.

Definition initial : state := State ∅ ∅ [].

Definition logging (l : log_line) : M state unit :=
  fun st => (Ok tt, State (data st) (files st) (journal st ++ [l])).

Definition get_data : M state (gmap dkey entry) := fun st => (Ok (data st), st).

Definition set_data (d : gmap dkey entry) : M state unit :=
  fun st => (Ok tt, State d (files st) (journal st)).

(** [file.write(text)] on a file opened in mode ['a']: the text goes to
    the end; the file is created when it is not there. A content is kept
    as the text written (on Windows the text layer stores each newline
    as two bytes). *)
Definition file_append (os : os_name) (path text : string)
    (fs : gmap (list string) string) : gmap (list string) string :=
  <[components os path := default EmptyString (fs !! components os path) +:+ text]> fs.

Definition write_append (os : os_name) (path text : string) : M state unit :=
  fun st => (Ok tt, State (data st) (file_append os path text (files st))
                      (journal st)).

(** [open(path, mode='a')] once granted: the file is created, empty,
    when it is not there. *)
Definition touch (os : os_name) (path : string)
    (fs : gmap (list string) string) : gmap (list string) string :=
  match fs !! components os path with
  | Some _ => fs
  | None => <[components os path := EmptyString]> fs
  end.

Definition open_append (os : os_name) (path : string) : M state unit :=
  fun st => (Ok tt, State (data st) (touch os path (files st)) (journal st)).

Section Correlator.

(** The platform of [os.path], and [json.loads]. Under the limit of
    [max_str_digits] the decoder of the [json] module returns no [int]
    beyond it, so the f-strings of lines 28, 34 and 56 render what they
    are given. *)
Variable os : os_name.
Variable json_loads : list Byte.byte -> result pyval.

(** [os.path.join(log_dir, "metric_log.csv")], line 15, and the file of
    [logging], line 9. *)
Definition csv_path : string := os_path_join os log_dir "metric_log.csv".
Definition log_path : string := os_path_join os log_dir "metric_log.log".

(** The f-string of line 16: the fields are rendered from left to
    right, and the first that cannot be rendered raises. *)
Definition csv_row (message_id y_true y_pred error : pyval)
  : option (result string) :=
  match str message_id, str y_true, str y_pred, str error with
  | Some ra, Some rb, Some rc, Some rd =>
      Some (do a <- ra; do b <- rb; do c <- rc; do d <- rd;
            Ok (a +:+ "," +:+ b +:+ "," +:+ c +:+ "," +:+ d +:+ nl))
  | _, _, _, _ => None
  end.

(** [log_error_to_csv], lines 13-19, under the answer [io_ok] of the
    file system. The open comes first, then the f-string, then the
    encoding of the row by [file.write]; an exception of any of them
    leaves the [with], which closes the file. The row and the line of
    line 17 are in the state after the close. A field outside [str]
    never arrives (see [process_message]: the id was hashed, the values
    subtracted). *)
Definition log_error_to_csv (io_ok : fs_answer)
    (message_id y_true y_pred error : pyval) : M state unit :=
  try_except
    (match io_ok with
     | OpenRefused => raise OSError
     | Granted | WriteRefused _ | CloseRefused _ =>
         run _ <- open_append os csv_path;
         match csv_row message_id y_true y_pred error with
         | None => raise TypeError
         | Some rendered =>
             run row <- lift rendered;
             run text <- lift (encode row);
             match io_ok with
             | WriteRefused kept =>
                 run _ <- write_append os csv_path (substring 0 kept text);
                 raise OSError
             | CloseRefused kept =>
                 run _ <- logging (InfoRecorded message_id error);
                 run _ <- write_append os csv_path (substring 0 kept text);
                 raise OSError
             | Granted | OpenRefused =>
                 run _ <- write_append os csv_path text;
                 logging (InfoRecorded message_id error)
             end
         end
     end)
    [(CException, fun e => logging (ErrorWrite e))].

(** [message.get('body') or message.get('prediction')], line 32. *)
Definition message_value (message : pyval) : result pyval :=
  do b <- get message "body";
  if truthy b then Ok b else get message "prediction".

(** [data[message_id] = data.get(message_id, {})] followed by
    [data[message_id][field] = value], lines 39-40 and 42-43. *)
Definition upsert (message_id : pyval) (set : entry -> entry)
  : M state unit :=
  run k <- lift (key_of message_id);
  run d <- get_data;
  set_data (<[k := set (default (Entry None None) (d !! k))]> d).

(** [data[message_id]] as an expression, line 46. *)
Definition data_getitem (message_id : pyval) : M state entry :=
  run k <- lift (key_of message_id);
  run d <- get_data;
  match d !! k with
  | Some e => ret e
  | None => raise KeyError
  end.

(** [del data[message_id]], line 51. *)
Definition data_delitem (message_id : pyval) : M state unit :=
  run k <- lift (key_of message_id);
  run d <- get_data;
  match d !! k with
  | Some _ => set_data (delete k d)
  | None => raise KeyError
  end.

(** Lines 38-43: the value goes into the entry of its id, under the
    role its queue gives it; a message of another queue stores nothing. *)
Definition store (routing_key : string) (message_id value : pyval)
  : M state unit :=
  if String.eqb routing_key "y_true" then
    upsert message_id (fun e => Entry (Some value) (y_pred e))
  else if String.eqb routing_key "y_pred" then
    upsert message_id (fun e => Entry (y_true e) (Some value))
  else ret tt.

(** Lines 46-51: an entry with both roles is logged and deleted. *)
Definition settle (io_ok : fs_answer) (message_id : pyval) : M state unit :=
  run e <- data_getitem message_id;
  match y_true e, y_pred e with
  | Some yt, Some yp =>
      run diff <- lift (sub yt yp);
      run error <- lift (abs diff);
      run _ <- log_error_to_csv io_ok message_id yt yp error;
      data_delitem message_id
  | _, _ => ret tt
  end.

(** The body of the [try] of [process_message], lines 24-51; each
    [return] of lines 29 and 35 ends it. *)
Definition process_message_body (routing_key : string)
    (body : list Byte.byte) (io_ok : fs_answer) : M state unit :=
  run message <- lift (json_loads body);
  run message_id <- lift (get message "id");
  if negb (truthy message_id) then logging (WarningNoId message)
  else
    run value <- lift (message_value message);
    if is_None value then logging (WarningNoValue message)
    else
      run _ <- store routing_key message_id value;
      settle io_ok message_id.

(** [process_message(ch, method, properties, body)], lines 21-56;
    [routing_key] is [method.routing_key]. *)
Definition process_message (routing_key : string) (body : list Byte.byte)
    (io_ok : fs_answer) : M state unit :=
  try_except (process_message_body routing_key body io_ok)
    [(CJSONDecodeError, fun e => logging (ErrorDecode e));
     (CException, fun e => logging (ErrorHandling e))].

(** One delivery of the broker, with the file system's answer should the
    handler write. *)
Record delivery : Type := Delivery {
  routing_key : string;
  body : list Byte.byte;
  io_ok : fs_answer
}.

(** [channel.start_consuming()], line 72, over the deliveries that come:
    the callback runs on each in turn, and an exception it lets out ends
    the loop. *)
Fixpoint start_consuming (ds : list delivery) : M state unit :=
  match ds with
  | [] => ret tt
  | d :: ds' =>
      run _ <- process_message (routing_key d) (body d) (io_ok d);
      start_consuming ds'
  end.

End Correlator.

End Metric.

(** ** The visualizer: [plot.py] *)

Module Plot.
Import Py.
Local Open Scope handler_scope.

(** The path given to [pd.read_csv], line 9, and the one given to
    [plt.savefig], line 32. *)
Definition csv_path : string := "D:/lab/logs/metric_log.csv".
Definition png_path : string := "D:/lab/logs/error_distribution.png".

(** The content [pd.read_csv] is given: that of the file at [csv_path],
    or nothing when there is none. *)
Definition read_input (os : os_name) (fs : gmap (list string) string)
  : option string :=
  fs !! components os csv_path.

(** The dialect [pd.read_csv] reads with its defaults: a comma parts
    two fields, a line break ends a record, a double quote opens a
    quoted field. A character is plain when it is none of these. *)
Definition plain_char (c : ascii) : bool :=
  let n := nat_of_ascii c in
  negb (Nat.eqb n 44 || Nat.eqb n 34 || Nat.eqb n 10 || Nat.eqb n 13).

Definition plain (s : string) : bool := string_forall plain_char s.



(** The fields of a record that holds no quote: the record cut at its
    commas. With [header=None] the columns are numbered from 0. *)
Fixpoint fields (record : string) : list string :=
  match record with
  | EmptyString => [EmptyString]
  | String c r =>
      if Nat.eqb (nat_of_ascii c) 44 then EmptyString :: fields r
      else match fields r with
           | f :: fs => String c f :: fs
           | [] => [String c EmptyString]
           end
  end.

Section Visualizer.

(** The platform, and what the script calls of pandas, matplotlib and
    seaborn: the frame [pd.read_csv(..., header=None)] makes of a file
    content, the column [df.iloc[:, i]] of a frame, and the figure that
    lines 18-29 draw of a column, as the bytes of its image. Each may
    raise. *)
Variable os : os_name.
Variable frame series : Type.
Variable pd_read_csv : option string -> result frame.
Variable iloc_column : frame -> Z -> result series.
Variable draw : series -> result string.

(** The [print] calls, lines 12 and 38. *)
Inductive printed : Type :=
| Head (df : frame)
| Failure (e : exn).

Record state : Type := State {
  files : gmap (list string) string;
  stdout : list printed
}.

Definition print (p : printed) : M state unit :=
  fun st => (Ok tt, State (files st) (stdout st ++ [p])).

Definition read_csv : M state frame :=
  fun st => (pd_read_csv (read_input os (files st)), st).

(** [plt.savefig(png_path)]: the image replaces the file, unless the
    file system refuses. *)
Definition savefig (io_ok : bool) (image : string) : M state unit :=
  if io_ok then
    fun st => (Ok tt, State (<[components os png_path := image]> (files st))
                        (stdout st))
  else raise OSError.

(** One pass of the loop, lines 7-39 (the two [time.sleep] apart). *)
Definition tick (io_ok : bool) : M state unit :=
  try_except
    (run df <- read_csv;
     run _ <- print (Head df);
     run absolute_error <- lift (iloc_column df 3);
     run image <- lift (draw absolute_error);
     savefig io_ok image)
    [(CException, fun e => print (Failure e))].

(** The [while True] loop over the passes that come. *)
Fixpoint loop (ios : list bool) : M state unit :=
  match ios with
  | [] => ret tt
  | io_ok :: rest => run _ <- tick io_ok; loop rest
  end.

End Visualizer.

End Plot.

(** ** The producer: [features/src/features.py] *)

Module Features.
Import Py.

(** A call of [channel.basic_publish], as the broker takes it;
    [delivery_mode] is that of its [pika.BasicProperties]. *)
Record publish : Type := Publish {
  exchange : string;
  routing_key : string;
  body : string;
  delivery_mode : Z
}.

(** [np.random.randint(low, high)] draws from the discrete uniform
    distribution on [low, high): these are its equally likely outcomes. *)
Definition randint_outcomes (low high : Z) : list Z :=
  List.map (fun i => low + Z.of_nat i) (seq 0 (Z.to_nat (high - low))).

(** [a[i]] on an array of [n] rows: a negative index counts from the
    end, an index out of [-n, n) raises IndexError. *)
Definition getitem {A} (a : list A) (i : Z) : result A :=
  let n := Z.of_nat (length a) in
  let j := if i <? 0 then i + n else i in
  if (0 <=? j) && (j <? n) then
    match a !! Z.to_nat j with
    | Some x => Ok x
    | None => Raise IndexError
    end
  else Raise IndexError.

Section Producer.

(** [json.dumps], and the dataset of [load_diabetes(return_X_y=True)]. *)
Variable json_dumps : pyval -> string.
Variable X : list (list float).
Variable y : list float.

(** [X.shape[0]]. *)
Definition shape0 : Z := Z.of_nat (length X).

(** The two messages of a tick, lines 29-37. *)
Definition message_y_true (message_id : float) (target : float) : pyval :=
  PDict [("id", PFloat message_id); ("body", PFloat target)].

Definition message_features (message_id : float) (row : list float) : pyval :=
  PDict [("id", PFloat message_id); ("body", PList (List.map PFloat row))].

(** The two [basic_publish] calls of a tick, lines 40-54. *)
Definition published (message_id : float) (target : float) (row : list float)
  : list publish :=
  [Publish "" "y_true" (json_dumps (message_y_true message_id target)) 2;
   Publish "" "features" (json_dumps (message_features message_id row)) 2].

(** One pass of the loop body, lines 23-54, for the row index that
    [np.random.randint(0, X.shape[0])] returned and the timestamp
    [datetime.timestamp(datetime.now())]: what the channel has received
    after it. *)
Definition tick (random_row : Z) (now : float) (channel : list publish)
  : result (list publish) :=
  do target <- getitem y random_row;
  do row <- getitem X random_row;
  Ok (channel ++ published now target row).

(** The [while True] loop over the ticks that come, each with its draw
    and its timestamp. *)
Fixpoint ticks (draws : list (Z * float)) (channel : list publish)
  : result (list publish) :=
  match draws with
  | [] => Ok channel
  | (random_row, now) :: rest =>
      do channel' <- tick random_row now channel;
      ticks rest channel'
  end.

End Producer.

End Features.

(** ** Notions the statements use *)

Module Spec.
Import Py Metric.

(** A payload the handler is to discard: not JSON, or an object without
    an id, or an object with neither ['body'] nor ['prediction']. *)
Definition malformed (decoded : result pyval) : Prop :=
  (exists e, decoded = Raise e)
  \/ (exists d, decoded = Ok (PDict d)
        /\ (assoc "id" d = None
            \/ (assoc "body" d = None /\ assoc "prediction" d = None))).

(** The state with one more line handed to [logging], nothing else
    changed. *)
Definition logged (l : log_line) (st : state) : state :=
  State (data st) (files st) (journal st ++ [l]).

(** No entry of [data] holds both roles. *)
Definition no_complete_entry (d : gmap dkey entry) : Prop :=
  forall k e, d !! k = Some e -> y_true e = None \/ y_pred e = None.

(** An entry that holds both roles is one whose difference raises. *)
Definition only_unsettled (d : gmap dkey entry) : Prop :=
  forall k yt yp, d !! k = Some (Entry (Some yt) (Some yp)) ->
    exists x, sub yt yp = Raise x.

(** Every value held by [data] is a [float]. *)
Definition all_floats (d : gmap dkey entry) : Prop :=
  forall k e v, d !! k = Some e -> y_true e = Some v \/ y_pred e = Some v ->
    exists f, v = PFloat f.

(** The states of a run of the script: [data] starts empty (line 11),
    whatever the files are, and changes by calls of the handler only. *)
Inductive reachable (os : os_name)
    (json_loads : list Byte.byte -> result pyval) : state -> Prop :=
| reach_start fs : reachable os json_loads (State ∅ fs [])
| reach_step st rk body io :
    reachable os json_loads st ->
    reachable os json_loads
      (snd (process_message os json_loads rk body io st)).

(** The result of the handler's [try] statement around a body. *)
Definition guarded (m : M state unit) : M state unit :=
  try_except m [(CJSONDecodeError, fun e => logging (ErrorDecode e));
                (CException, fun e => logging (ErrorHandling e))].

Definition handler_line (e : exn) : log_line :=
  if isinstance e CJSONDecodeError then ErrorDecode e else ErrorHandling e.

(** [data] after lines 38-43. *)
Definition arrive (rk : string) (k : dkey) (v : pyval) (d : gmap dkey entry)
  : gmap dkey entry :=
  if String.eqb rk "y_true"
  then <[k := Entry (Some v) (y_pred (default (Entry None None) (d !! k)))]> d
  else if String.eqb rk "y_pred"
  then <[k := Entry (y_true (default (Entry None None) (d !! k))) (Some v)]> d
  else d.

(** A message the checks let through (lines 24-35), with what it
    carries: its id and its value. *)
Definition accepted (json_loads : list Byte.byte -> result pyval)
    (body : list Byte.byte) (mid v : pyval) : Prop :=
  exists m, json_loads body = Ok m /\ get m "id" = Ok mid
            /\ truthy mid = true /\ message_value m = Ok v
            /\ is_None v = false.

(** A delivery whose message passes the checks with value [v] under an
    id of key [k]. *)
Definition carries (json_loads : list Byte.byte -> result pyval)
    (d : delivery) (k : dkey) (v : pyval) : Prop :=
  exists mid, accepted json_loads (body d) mid v /\ key_of mid = Ok k.

(** A line of the journal that is not the record of a row of id [k]. *)
Definition no_record_of (k : dkey) (l : log_line) : Prop :=
  forall mid err, l = InfoRecorded mid err -> key_of mid <> Ok k.

(** Deliveries whose difference raises: a target and a prediction sent
    as a one-element list; a target of 401 digits and a prediction. *)
Definition target_7 : delivery :=
  Delivery "y_true" (Json.payload "{'id': 7, 'body': 151.0}") true.
Definition listed_prediction_7 : delivery :=
  Delivery "y_pred" (Json.payload "{'id': 7, 'body': [150.5]}") true.

Definition huge_target_7 : delivery :=
  Delivery "y_true"
    (Json.payload ("{'id': 7, 'body': 1" +:+ zeros 400 +:+ "}")) true.
Definition later_prediction_7 : delivery :=
  Delivery "y_pred" (Json.payload "{'id': 7, 'body': 1.5}") true.

Definition deliver (os : os_name) (d : delivery) (st : state) : state :=
  snd (process_message os Json.loads (routing_key d) (body d) (io_ok d) st).

(** The two messages of the example row, and a ground truth of 0.0
    followed by a prediction sent under ['body']. *)
Definition truth_1000 : list Byte.byte :=
  Json.payload "{'id':1000.0,'body':42.0}".
Definition prediction_1000 : list Byte.byte :=
  Json.payload "{'id':1000.0,'prediction':40.5}".
Definition zero_truth_1000 : delivery :=
  Delivery "y_true" (Json.payload "{'id':1000.0,'body':0.0}") true.
Definition body_prediction_1000 : delivery :=
  Delivery "y_pred" (Json.payload "{'id':1000.0,'body':3.5}") true.

(** The rows a journal tells of: the id and the error of each line that
    line 17 logged, in order. *)
Definition records (j : list log_line) : list (pyval * pyval) :=
  omap (fun l => match l with InfoRecorded m e => Some (m, e) | _ => None end) j.

(** [v < 0] on a number. *)
Definition lt_zero (v : pyval) : bool :=
  match as_number v with
  | Some (NInt z) => z <? 0
  | Some (NFloat f) => PrimFloat.ltb f PrimFloat.zero
  | None => false
  end.

(** The row of a record: the f-string of line 16 over the id recorded,
    two values, and the absolute value of their difference, which is
    the error recorded. *)
Definition row_of (r : pyval * pyval) (row : string) : Prop :=
  exists yt yp diff,
    sub yt yp = Ok diff /\ abs diff = Ok (snd r)
    /\ csv_row (fst r) yt yp (snd r) = Some (Ok row).

(** The text the rows make, one after the other. *)
Definition text (rows : list string) : string :=
  foldr String.append EmptyString rows.

(** Every entry of [data] holds a ground truth or a prediction. *)
Definition holds_a_half (d : gmap dkey entry) : Prop :=
  forall k e, d !! k = Some e -> y_true e <> None \/ y_pred e <> None.

(** The two roles of an entry, each with the queue that fills it. *)
Inductive role : Type :=
| Truth
| Prediction.

Definition queue_of (r : role) : string :=
  match r with Truth => "y_true" | Prediction => "y_pred" end.

Definition half (r : role) (e : entry) : option pyval :=
  match r with Truth => y_true e | Prediction => y_pred e end.

(** No entry of [data] holds the role. *)
Definition lacks (r : role) (d : gmap dkey entry) : Prop :=
  forall k e, d !! k = Some e -> half r e = None.




End Spec.

(** ** Facts about the correlator *)

Module MetricFacts.
Import Py Metric Spec.

Lemma append_assoc (a b c : string) : (a +:+ b) +:+ c = a +:+ (b +:+ c).
Proof.
  induction a as [|x a IH]; [reflexivity|].
  change (String x ((a +:+ b) +:+ c) = String x (a +:+ b +:+ c)).
  rewrite IH. reflexivity.
Qed.

Lemma append_empty_r (a : string) : a +:+ "" = a.
Proof.
  induction a as [|x a IH]; [reflexivity|].
  change (String x (a +:+ "") = String x a). rewrite IH. reflexivity.
Qed.

Lemma file_append_touch os path text fs :
  file_append os path text (touch os path fs) = file_append os path text fs.
Proof.
  unfold file_append, touch.
  destruct (fs !! components os path) eqn:L; [rewrite L; reflexivity|].
  rewrite lookup_insert_eq. apply insert_insert_eq.
Qed.

Lemma touch_file_append os path fs :
  touch os path fs = file_append os path EmptyString fs.
Proof.
  unfold file_append, touch.
  destruct (fs !! components os path) as [c|] eqn:L; [|reflexivity].
  simpl. rewrite append_empty_r. symmetry. apply insert_id, L.
Qed.

Lemma touch_lookup_ne os path fs p :
  p <> components os path -> touch os path fs !! p = fs !! p.
Proof.
  intros H. unfold touch. destruct (fs !! components os path); [reflexivity|].
  apply lookup_insert_ne. congruence.
Qed.

Lemma touch_content os path fs :
  default EmptyString (touch os path fs !! components os path)
  = default EmptyString (fs !! components os path).
Proof.
  unfold touch. destruct (fs !! components os path) eqn:L.
  - rewrite L. reflexivity.
  - rewrite lookup_insert_eq. reflexivity.
Qed.

Section Facts.
Variable os : os_name.
Variable json_loads : list Byte.byte -> result pyval.

Lemma isinstance_Exception e : isinstance e CException = true.
Proof. destruct e; reflexivity. Qed.

(** [log_error_to_csv] returns, whatever happens in its [try]; what it
    leaves, by the answer of the file system and by what line 16 does. *)
Lemma log_error_to_csv_eq io mid yt yp err st :
  log_error_to_csv os io mid yt yp err st =
  (Ok tt,
   match io with
   | OpenRefused => logged (ErrorWrite OSError) st
   | _ =>
       let opened := touch os (csv_path os) (files st) in
       match csv_row mid yt yp err with
       | None => State (data st) opened (journal st ++ [ErrorWrite TypeError])
       | Some (Raise e) => State (data st) opened (journal st ++ [ErrorWrite e])
       | Some (Ok row) =>
           match encode row with
           | Raise e => State (data st) opened (journal st ++ [ErrorWrite e])
           | Ok text =>
               match io with
               | WriteRefused kept =>
                   State (data st)
                     (file_append os (csv_path os) (substring 0 kept text)
                        (files st))
                     (journal st ++ [ErrorWrite OSError])
               | CloseRefused kept =>
                   State (data st)
                     (file_append os (csv_path os) (substring 0 kept text)
                        (files st))
                     (journal st ++ [InfoRecorded mid err; ErrorWrite OSError])
               | _ =>
                   State (data st)
                     (file_append os (csv_path os) text (files st))
                     (journal st ++ [InfoRecorded mid err])
               end
           end
       end
   end).
Proof.
  unfold log_error_to_csv, try_except, mbind, open_append, lift, write_append,
    logging, raise.
  destruct io; cbv zeta;
    try (destruct (csv_row mid yt yp err) as [[row|e]|]; cbn [fst snd];
         [destruct (encode row) as [text|e]; cbn [fst snd data files journal]
         | |]);
    cbn [List.find fst snd data files journal isinstance];
    rewrite ?file_append_touch, <- ?app_assoc;
    try reflexivity; destruct e; reflexivity.
Qed.

Lemma log_error_to_csv_returns io mid yt yp err st :
  fst (log_error_to_csv os io mid yt yp err st) = Ok tt.
Proof. rewrite log_error_to_csv_eq. reflexivity. Qed.

Lemma log_error_to_csv_data io mid yt yp err st :
  data (snd (log_error_to_csv os io mid yt yp err st)) = data st.
Proof.
  rewrite log_error_to_csv_eq. cbv zeta.
  destruct io; try reflexivity;
    (destruct (csv_row mid yt yp err) as [[row|e]|]; try reflexivity;
     destruct (encode row); reflexivity).
Qed.

(** What the call leaves in the files and in the journal does not depend
    on [data]. *)
Lemma log_error_to_csv_frame io mid yt yp err d st :
  files (snd (log_error_to_csv os io mid yt yp err
                (State d (files st) (journal st))))
  = files (snd (log_error_to_csv os io mid yt yp err st))
  /\ journal (snd (log_error_to_csv os io mid yt yp err
                     (State d (files st) (journal st))))
     = journal (snd (log_error_to_csv os io mid yt yp err st)).
Proof.
  rewrite !log_error_to_csv_eq. cbv zeta.
  destruct io; try (split; reflexivity);
    (destruct (csv_row mid yt yp err) as [[row|e]|]; try (split; reflexivity);
     destruct (encode row); split; reflexivity).
Qed.

(** The call on a row that renders and encodes, all granted. *)
Lemma log_error_to_csv_granted mid yt yp err row st :
  csv_row mid yt yp err = Some (Ok row) -> encode row = Ok row ->
  snd (log_error_to_csv os Granted mid yt yp err st)
  = State (data st) (file_append os (csv_path os) row (files st))
      (journal st ++ [InfoRecorded mid err]).
Proof.
  intros R E. rewrite log_error_to_csv_eq. cbv zeta. rewrite R, E. reflexivity.
Qed.

Lemma encode_eq row text : encode row = Ok text -> text = row.
Proof. unfold encode. destruct (has_surrogate row); congruence. Qed.

(** The call changes one file at most, the log, and only by adding to
    its end; the lines it adds to the journal tell of this id and this
    error; with all granted, it records the row it adds, or neither. *)
Lemma log_error_to_csv_effect io mid yt yp err st :
  exists js text,
    journal (snd (log_error_to_csv os io mid yt yp err st)) = journal st ++ js
    /\ (files (snd (log_error_to_csv os io mid yt yp err st)) = files st
        /\ text = EmptyString
        \/ files (snd (log_error_to_csv os io mid yt yp err st))
           = file_append os (csv_path os) text (files st))
    /\ Forall (fun l => l = InfoRecorded mid err \/ exists e, l = ErrorWrite e) js
    /\ (io = Granted ->
        js = [InfoRecorded mid err] /\ csv_row mid yt yp err = Some (Ok text)
        \/ text = EmptyString /\ exists e, js = [ErrorWrite e]).
Proof.
  rewrite log_error_to_csv_eq. cbv zeta. rewrite touch_file_append.
  destruct io;
    try (destruct (csv_row mid yt yp err) as [[row|e]|] eqn:R;
         [destruct (encode row) as [text|e] eqn:E;
          [apply encode_eq in E as ->|]| |]);
    eexists _, _; cbn [journal files];
    (split; [reflexivity|]);
    (split; [first [right; reflexivity|left; split; reflexivity]|]);
    (split;
     [repeat (constructor;
              [first [left; reflexivity|right; eexists; reflexivity]|]);
      constructor|]);
    intros G; try discriminate G;
    first [left; split; reflexivity
          |right; split; [reflexivity|eexists; reflexivity]].
Qed.

Lemma caught (m : M state unit) (f g : exn -> log_line) c st :
  exists st', try_except m [(c, fun e => logging (f e));
                            (CException, fun e => logging (g e))] st
              = (Ok tt, st').
Proof.
  unfold try_except. destruct (m st) as [[[]|e] st']; [eauto|].
  simpl. destruct (isinstance e c); simpl; eauto.
Qed.

Lemma process_message_returns rk body io st :
  fst (process_message os json_loads rk body io st) = Ok tt.
Proof.
  unfold process_message.
  destruct (caught (process_message_body os json_loads rk body io)
              ErrorDecode ErrorHandling CJSONDecodeError st) as [st' E].
  rewrite E. reflexivity.
Qed.

Lemma start_consuming_all ds : forall st,
  start_consuming os json_loads ds st =
  (Ok tt, foldl (fun s d => snd (process_message os json_loads
                                   (routing_key d) (body d) (io_ok d) s))
            st ds).
Proof.
  induction ds as [|d ds IH]; intros st; simpl; [reflexivity|].
  unfold mbind.
  pose proof (process_message_returns (routing_key d) (body d) (io_ok d) st) as R.
  destruct (process_message os json_loads (routing_key d) (body d) (io_ok d) st)
    as [r st'].
  simpl in R. subst r. simpl. apply IH.
Qed.

(** The handler on a payload that does not decode. *)
Lemma process_undecodable rk body io st e :
  json_loads body = Raise e ->
  process_message os json_loads rk body io st =
  (Ok tt, logged (handler_line e) st).
Proof.
  intros E. unfold process_message, try_except, process_message_body,
    mbind, lift. rewrite E. simpl.
  destruct e; reflexivity.
Qed.

Lemma process_falsy_id rk body io st d :
  json_loads body = Ok (PDict d) ->
  truthy (default PNone (assoc "id" d)) = false ->
  process_message os json_loads rk body io st =
  (Ok tt, logged (WarningNoId (PDict d)) st).
Proof.
  intros E T. unfold process_message, try_except, process_message_body,
    mbind, lift. rewrite E. simpl. rewrite T. reflexivity.
Qed.

Lemma process_no_value rk body io st d :
  json_loads body = Ok (PDict d) ->
  truthy (default PNone (assoc "id" d)) = true ->
  message_value (PDict d) = Ok PNone ->
  process_message os json_loads rk body io st =
  (Ok tt, logged (WarningNoValue (PDict d)) st).
Proof.
  intros E T V. unfold process_message, try_except, process_message_body,
    mbind, lift. rewrite E. simpl. rewrite T. simpl. rewrite V. reflexivity.
Qed.

Lemma abs_of_difference a b diff :
  sub a b = Ok diff -> exists error, abs diff = Ok error.
Proof.
  unfold sub, abs, bind.
  destruct (as_number a) as [[x|f]|], (as_number b) as [[y|g]|];
    try discriminate;
    repeat match goal with
    | |- context [float_of_int ?z] => destruct (float_of_int z)
    end; intros E; inversion E; subst; simpl; eauto.
Qed.

Lemma guarded_ok m st st' : m st = (Ok tt, st') -> guarded m st = (Ok tt, st').
Proof. unfold guarded, try_except. intros ->. reflexivity. Qed.

Lemma guarded_raise m st st' e :
  m st = (Raise e, st') -> guarded m st = (Ok tt, logged (handler_line e) st').
Proof.
  unfold guarded, try_except, handler_line. intros ->. destruct e; reflexivity.
Qed.

(** A message that passes the checks of lines 24-35 reaches lines 38-51. *)
Lemma process_accepted rk body io st m mid v :
  json_loads body = Ok m -> get m "id" = Ok mid -> truthy mid = true ->
  message_value m = Ok v -> is_None v = false ->
  process_message os json_loads rk body io st =
  guarded (run _ <- store rk mid v; settle os io mid)%handler st.
Proof.
  intros E I T V N.
  unfold process_message, guarded, try_except, process_message_body at 1.
  unfold mbind at 1, lift at 1. rewrite E.
  unfold mbind at 1, lift at 1. rewrite I, T. cbn [negb].
  unfold mbind at 1, lift at 1. rewrite V, N. reflexivity.
Qed.

Lemma store_eq rk mid v k st :
  key_of mid = Ok k ->
  store rk mid v st =
  (Ok tt, State (arrive rk k v (data st)) (files st) (journal st)).
Proof.
  intros K. unfold store, arrive, upsert, mbind, lift, get_data, set_data, ret.
  rewrite K. destruct st as [d f j]; simpl.
  destruct (String.eqb rk "y_true"); [reflexivity|].
  destruct (String.eqb rk "y_pred"); reflexivity.
Qed.

Lemma store_unhashable rk mid v e st :
  key_of mid = Raise e ->
  store rk mid v st = (if String.eqb rk "y_true" || String.eqb rk "y_pred"
                       then Raise e else Ok tt, st).
Proof.
  intros K. unfold store, upsert, mbind, lift, ret. rewrite K.
  destruct (String.eqb rk "y_true"); [reflexivity|].
  destruct (String.eqb rk "y_pred"); reflexivity.
Qed.

Lemma settle_unhashable io mid e st :
  key_of mid = Raise e -> settle os io mid st = (Raise e, st).
Proof.
  intros K. unfold settle, data_getitem, mbind, lift. rewrite K. reflexivity.
Qed.

Lemma settle_absent io mid k st :
  key_of mid = Ok k -> data st !! k = None ->
  settle os io mid st = (Raise KeyError, st).
Proof.
  intros K L. unfold settle, data_getitem, mbind, lift, get_data, raise.
  rewrite K, L. reflexivity.
Qed.

Lemma settle_incomplete io mid k e st :
  key_of mid = Ok k -> data st !! k = Some e ->
  y_true e = None \/ y_pred e = None ->
  settle os io mid st = (Ok tt, st).
Proof.
  intros K L H. unfold settle, data_getitem, mbind, lift, get_data, ret.
  rewrite K, L. destruct e as [[yt|] [yp|]]; simpl in *;
    try reflexivity; destruct H; discriminate.
Qed.

Lemma settle_failing io mid k yt yp x st :
  key_of mid = Ok k -> data st !! k = Some (Entry (Some yt) (Some yp)) ->
  sub yt yp = Raise x ->
  settle os io mid st = (Raise x, st).
Proof.
  intros K L S. unfold settle, data_getitem, mbind, lift, get_data, ret.
  rewrite K, L. simpl. rewrite S. reflexivity.
Qed.

Lemma settle_complete io mid k yt yp diff err st :
  key_of mid = Ok k -> data st !! k = Some (Entry (Some yt) (Some yp)) ->
  sub yt yp = Ok diff -> abs diff = Ok err ->
  settle os io mid st =
  (Ok tt,
   State (delete k (data st))
     (files (snd (log_error_to_csv os io mid yt yp err st)))
     (journal (snd (log_error_to_csv os io mid yt yp err st)))).
Proof.
  intros K L S A. unfold settle, data_getitem, mbind, lift, get_data, ret.
  rewrite K, L. cbn [y_true y_pred]. rewrite S, A.
  pose proof (log_error_to_csv_data io mid yt yp err st) as D.
  pose proof (log_error_to_csv_returns io mid yt yp err st) as E.
  destruct (log_error_to_csv os io mid yt yp err st) as [r w].
  cbn [fst snd] in D, E |- *. subst r.
  unfold data_delitem, mbind, lift, get_data, set_data. rewrite K.
  cbn [fst snd]. rewrite D, L. reflexivity.
Qed.

Lemma handler_line_no_record e mid err : handler_line e <> InfoRecorded mid err.
Proof. unfold handler_line. destruct (isinstance e _); discriminate. Qed.

(** A message stopped by the checks of lines 24-35 leaves one line in
    the journal, not the record of a row, and nothing else. *)
Lemma process_checked rk body io st :
  (exists l, (forall mid err, l <> InfoRecorded mid err)
             /\ process_message os json_loads rk body io st
                = (Ok tt, logged l st))
  \/ (exists mid v, accepted json_loads body mid v).
Proof.
  destruct (json_loads body) as [m|e] eqn:E.
  2:{ left. exists (handler_line e). split; [apply handler_line_no_record|].
      apply process_undecodable, E. }
  destruct (get m "id") as [mid|e] eqn:I.
  2:{ left. exists (handler_line e). split; [apply handler_line_no_record|].
      unfold process_message. apply guarded_raise.
      unfold process_message_body, mbind, lift. rewrite E, I. reflexivity. }
  destruct (truthy mid) eqn:T.
  2:{ left. exists (WarningNoId m). split; [discriminate|].
      unfold process_message. apply guarded_ok.
      unfold process_message_body, mbind, lift. rewrite E, I, T. reflexivity. }
  destruct (message_value m) as [v|e] eqn:V.
  2:{ left. exists (handler_line e). split; [apply handler_line_no_record|].
      unfold process_message. apply guarded_raise.
      unfold process_message_body, mbind, lift. rewrite E, I, T, V. reflexivity. }
  destruct (is_None v) eqn:N.
  { left. exists (WarningNoValue m). split; [discriminate|].
    unfold process_message. apply guarded_ok.
    unfold process_message_body, mbind, lift. rewrite E, I, T, V, N. reflexivity. }
  right. exists mid, v, m. auto.
Qed.

(** An accepted message whose id cannot be hashed is logged and dropped. *)
Lemma process_unhashable rk body io st mid v e :
  accepted json_loads body mid v -> key_of mid = Raise e ->
  process_message os json_loads rk body io st
  = (Ok tt, logged (handler_line e) st).
Proof.
  intros (m & E & I & T & V & N) K.
  rewrite (process_accepted rk body io st m mid v E I T V N).
  apply guarded_raise. unfold mbind. rewrite (store_unhashable _ _ _ _ _ K).
  destruct (_ || _); [reflexivity|]. apply settle_unhashable, K.
Qed.

Lemma arrive_lookup rk k v d :
  arrive rk k v d !! k =
  if String.eqb rk "y_true"
  then Some (Entry (Some v) (y_pred (default (Entry None None) (d !! k))))
  else if String.eqb rk "y_pred"
  then Some (Entry (y_true (default (Entry None None) (d !! k))) (Some v))
  else d !! k.
Proof.
  unfold arrive. destruct (String.eqb rk "y_true");
    [apply lookup_insert_eq|].
  destruct (String.eqb rk "y_pred"); [apply lookup_insert_eq|reflexivity].
Qed.

Lemma arrive_insert rk k v d :
  arrive rk k v d = d \/ exists e, arrive rk k v d = <[k := e]> d.
Proof.
  unfold arrive. destruct (String.eqb rk "y_true"); [eauto|].
  destruct (String.eqb rk "y_pred"); eauto.
Qed.

Lemma delete_arrive rk k v d : delete k (arrive rk k v d) = delete k d.
Proof.
  destruct (arrive_insert rk k v d) as [->|[e ->]];
    [reflexivity|apply delete_insert_eq].
Qed.

(** What one call of the handler can do to [data] and to the files. *)
Lemma process_message_cases rk body io st :
  let st' := snd (process_message os json_loads rk body io st) in
  (data st' = data st /\ files st' = files st)
  \/ (exists k e, (y_true e = None \/ y_pred e = None)
         /\ data st' = <[k := e]> (data st) /\ files st' = files st)
  \/ (exists k yt yp x, sub yt yp = Raise x
         /\ data st' = <[k := Entry (Some yt) (Some yp)]> (data st)
         /\ files st' = files st)
  \/ (exists k, data st' = delete k (data st)
         /\ (files st' = files st
             \/ exists row,
                  files st' = file_append os (csv_path os) row (files st))).
Proof.
  cbv zeta.
  destruct (process_checked rk body io st)
    as [(l & _ & ->)|(mid & v & Acc)]; [left; split; reflexivity|].
  destruct (key_of mid) as [k|e] eqn:K.
  2:{ left. rewrite (process_unhashable rk body io st mid v e Acc K).
      split; reflexivity. }
  destruct Acc as (m & E & I & T & V & N).
  rewrite (process_accepted rk body io st m mid v E I T V N).
  set (st1 := State (arrive rk k v (data st)) (files st) (journal st)).
  assert (S1 : forall r st2, settle os io mid st1 = (r, st2) ->
            (run _ <- store rk mid v; settle os io mid)%handler st = (r, st2)).
  { intros r st2 H. unfold mbind. rewrite (store_eq _ _ _ _ _ K). exact H. }
  assert (Ar : data st1 = data st
               \/ exists e, data st1 = <[k := e]> (data st)
                            /\ data st1 !! k = Some e).
  { simpl. destruct (arrive_insert rk k v (data st)) as [->|[e ->]];
      [auto|]. right. exists e. split; [reflexivity|apply lookup_insert_eq]. }
  destruct (data st1 !! k) as [[[yt|] [yp|]]|] eqn:L.
  - destruct (sub yt yp) as [diff|x] eqn:D.
    + destruct (abs_of_difference _ _ _ D) as [err A].
      right; right; right. exists k.
      erewrite guarded_ok;
        [|apply S1, (settle_complete io mid k yt yp diff err st1 K L D A)].
      destruct (log_error_to_csv_effect io mid yt yp err st1)
        as (js & text & _ & F & _).
      subst st1. cbn [snd data files] in F |- *. rewrite delete_arrive.
      split; [reflexivity|]. destruct F as [[F _]|F]; rewrite F; eauto.
    + erewrite guarded_raise;
        [|apply S1, (settle_failing io mid k yt yp x st1 K L D)].
      destruct Ar as [Ar|[e [Ar Le]]]; [left; split; [exact Ar|reflexivity]|].
      right; right; left. exists k, yt, yp, x. inversion Le. subst e. auto.
  - erewrite guarded_ok; [|apply S1, (settle_incomplete io mid k _ st1 K L); auto].
    destruct Ar as [Ar|[e [Ar Le]]]; [left; split; [exact Ar|reflexivity]|].
    right; left. exists k, e. inversion Le; subst e. simpl. auto.
  - erewrite guarded_ok; [|apply S1, (settle_incomplete io mid k _ st1 K L); auto].
    destruct Ar as [Ar|[e [Ar Le]]]; [left; split; [exact Ar|reflexivity]|].
    right; left. exists k, e. inversion Le; subst e. simpl. auto.
  - erewrite guarded_ok; [|apply S1, (settle_incomplete io mid k _ st1 K L); auto].
    destruct Ar as [Ar|[e [Ar Le]]]; [left; split; [exact Ar|reflexivity]|].
    right; left. exists k, e. inversion Le; subst e. simpl. auto.
  - erewrite guarded_raise; [|apply S1, (settle_absent io mid k st1 K L)].
    destruct Ar as [Ar|[e [Ar Le]]]; [left; split; [exact Ar|reflexivity]|].
    discriminate.
Qed.

Lemma only_unsettled_step rk body io st :
  only_unsettled (data st) ->
  only_unsettled (data (snd (process_message os json_loads rk body io st))).
Proof.
  intros Inv.
  destruct (process_message_cases rk body io st)
    as [[-> _]|[(k & e & He & -> & _)|[(k & yt & yp & x & Hx & -> & _)
       |(k & -> & _)]]];
    [exact Inv| | |]; intros k' yt' yp' L.
  - destruct (decide (k = k')) as [->|Hne].
    + rewrite lookup_insert_eq in L. inversion L; subst e.
      destruct He; discriminate.
    + rewrite lookup_insert_ne in L by exact Hne. eapply Inv, L.
  - destruct (decide (k = k')) as [->|Hne].
    + rewrite lookup_insert_eq in L. inversion L; subst. eauto.
    + rewrite lookup_insert_ne in L by exact Hne. eapply Inv, L.
  - apply lookup_delete_Some in L as [_ L]. eapply Inv, L.
Qed.

Lemma reachable_only_unsettled st :
  reachable os json_loads st -> only_unsettled (data st).
Proof.
  induction 1 as [fs|st rk body io _ IH].
  - intros k yt yp L. simpl in L. rewrite lookup_empty in L. discriminate.
  - apply only_unsettled_step, IH.
Qed.

Lemma sub_floats f g : sub (PFloat f) (PFloat g) = Ok (PFloat (PrimFloat.sub f g)).
Proof. reflexivity. Qed.

Lemma eq_zero_falsy v : eq_zero v = true -> truthy v = false.
Proof.
  destruct v as [|[]| | | | |]; simpl; try discriminate;
    try reflexivity; intros ->; reflexivity.
Qed.



(** The call that brings one half and finds no complete entry. *)
Lemma process_half rk body io st mid v k e :
  accepted json_loads body mid v -> key_of mid = Ok k ->
  arrive rk k v (data st) !! k = Some e ->
  y_true e = None \/ y_pred e = None ->
  process_message os json_loads rk body io st =
  (Ok tt, State (arrive rk k v (data st)) (files st) (journal st)).
Proof.
  intros (m & E & I & T & V & N) K L H.
  rewrite (process_accepted rk body io st m mid v E I T V N).
  apply guarded_ok. unfold mbind. rewrite (store_eq _ _ _ _ _ K).
  eapply settle_incomplete; [exact K|exact L|exact H].
Qed.

(** The call that completes an entry whose difference is defined. *)
Lemma process_pair rk body io st mid v k yt yp diff err :
  accepted json_loads body mid v -> key_of mid = Ok k ->
  arrive rk k v (data st) !! k = Some (Entry (Some yt) (Some yp)) ->
  sub yt yp = Ok diff -> abs diff = Ok err ->
  process_message os json_loads rk body io st =
  (Ok tt,
   State (delete k (data st))
     (files (snd (log_error_to_csv os io mid yt yp err st)))
     (journal (snd (log_error_to_csv os io mid yt yp err st)))).
Proof.
  intros (m & E & I & T & V & N) K L S A.
  rewrite (process_accepted rk body io st m mid v E I T V N).
  apply guarded_ok. unfold mbind. rewrite (store_eq _ _ _ _ _ K).
  rewrite (settle_complete io mid k yt yp diff err
             (State (arrive rk k v (data st)) (files st) (journal st))
             K L S A).
  destruct (log_error_to_csv_frame io mid yt yp err
              (arrive rk k v (data st)) st) as [-> ->].
  cbn [data]. rewrite delete_arrive. reflexivity.
Qed.

(** The call that completes an entry whose difference raises. *)
Lemma process_unsettled rk body io st mid v k yt yp x :
  accepted json_loads body mid v -> key_of mid = Ok k ->
  arrive rk k v (data st) !! k = Some (Entry (Some yt) (Some yp)) ->
  sub yt yp = Raise x ->
  process_message os json_loads rk body io st =
  (Ok tt, logged (handler_line x)
            (State (arrive rk k v (data st)) (files st) (journal st))).
Proof.
  intros (m & E & I & T & V & N) K L S.
  rewrite (process_accepted rk body io st m mid v E I T V N).
  apply guarded_raise. unfold mbind. rewrite (store_eq _ _ _ _ _ K).
  eapply settle_failing; [exact K|exact L|exact S].
Qed.

(** A ground truth and a prediction of one id, in either order, from a
    state with no entry for the id: one row, and [data] as it was. *)
Lemma pair_recorded body_t body_p io mid yt yp k diff err row st :
  accepted json_loads body_t mid yt -> accepted json_loads body_p mid yp -> key_of mid = Ok k ->
  sub yt yp = Ok diff -> abs diff = Ok err ->
  csv_row mid yt yp err = Some (Ok row) -> encode row = Ok row ->
  data st !! k = None ->
  let recorded :=
    State (data st) (file_append os (csv_path os) row (files st))
      (journal st ++ [InfoRecorded mid err]) in
  snd (process_message os json_loads "y_pred" body_p true
         (snd (process_message os json_loads "y_true" body_t io st)))
  = recorded
  /\ snd (process_message os json_loads "y_true" body_t true
            (snd (process_message os json_loads "y_pred" body_p io st)))
     = recorded.
Proof.
  intros At Ap K S A R En L. cbv zeta. split.
  - rewrite (process_half "y_true" body_t io st mid yt k (Entry (Some yt) None)
               At K); [|rewrite arrive_lookup, L; reflexivity|auto].
    simpl.
    rewrite (process_pair "y_pred" body_p true _ mid yp k yt yp diff err Ap K);
      [| |exact S|exact A].
    + change (answer_of_bool true) with Granted.
      rewrite (log_error_to_csv_granted mid yt yp err row _ R En). simpl.
      f_equal. rewrite delete_arrive. apply delete_id, L.
    + simpl. rewrite arrive_lookup. simpl. rewrite arrive_lookup. reflexivity.
  - rewrite (process_half "y_pred" body_p io st mid yp k (Entry None (Some yp))
               Ap K); [|rewrite arrive_lookup, L; reflexivity|auto].
    simpl.
    rewrite (process_pair "y_true" body_t true _ mid yt k yt yp diff err At K);
      [| |exact S|exact A].
    + change (answer_of_bool true) with Granted.
      rewrite (log_error_to_csv_granted mid yt yp err row _ R En). simpl.
      f_equal. rewrite delete_arrive. apply delete_id, L.
    + simpl. rewrite arrive_lookup. simpl. rewrite arrive_lookup. reflexivity.
Qed.

(** The call of an accepted message with no entry to look at (line 46
    raises KeyError: the queue is neither of the two). *)
Lemma process_absent rk body io st mid v k :
  accepted json_loads body mid v -> key_of mid = Ok k ->
  arrive rk k v (data st) !! k = None ->
  process_message os json_loads rk body io st
  = (Ok tt, logged (handler_line KeyError)
              (State (arrive rk k v (data st)) (files st) (journal st))).
Proof.
  intros (m & E & I & T & V & N) K L.
  rewrite (process_accepted rk body io st m mid v E I T V N).
  apply guarded_raise. unfold mbind. rewrite (store_eq _ _ _ _ _ K).
  eapply settle_absent; [exact K|exact L].
Qed.

Lemma arrive_other_queue rk k v d :
  rk <> "y_true" -> rk <> "y_pred" -> arrive rk k v d = d.
Proof.
  intros H1 H2. unfold arrive.
  destruct (String.eqb_spec rk "y_true"); [contradiction|].
  destruct (String.eqb_spec rk "y_pred"); [contradiction|reflexivity].
Qed.

Lemma arrive_lookup_ne rk k k' v d :
  k <> k' -> arrive rk k v d !! k' = d !! k'.
Proof.
  intros H. destruct (arrive_insert rk k v d) as [->|[e ->]];
    [reflexivity|apply lookup_insert_ne, H].
Qed.

(** A call that brings no accepted message of key [k] on the two queues
    leaves an incomplete entry of [k] as it is, and records no row of
    [k]. *)
Lemma other_delivery_keeps_entry rk body io st k e :
  data st !! k = Some e -> y_true e = None \/ y_pred e = None ->
  (forall mid v, accepted json_loads body mid v -> key_of mid = Ok k ->
     rk <> "y_true" /\ rk <> "y_pred") ->
  exists js,
    data (snd (process_message os json_loads rk body io st)) !! k = Some e
    /\ journal (snd (process_message os json_loads rk body io st))
       = journal st ++ js
    /\ Forall (no_record_of k) js.
Proof.
  intros L Inc Hk.
  destruct (process_checked rk body io st)
    as [(l & Hl & ->)|(mid & v & Acc)].
  { exists [l]. repeat split; [exact L|].
    constructor; [|constructor]. intros mid err ->. destruct (Hl mid err eq_refl). }
  destruct (key_of mid) as [k'|x] eqn:K.
  2:{ rewrite (process_unhashable rk body io st mid v x Acc K).
      exists [handler_line x]. repeat split; [exact L|].
      constructor; [|constructor]. intros ? ? H.
      destruct (handler_line_no_record _ _ _ H). }
  destruct (decide (k' = k)) as [->|Hne].
  - destruct (Hk mid v Acc K) as [H1 H2].
    rewrite (process_half rk body io st mid v k e Acc K);
      rewrite ?(arrive_other_queue rk k v _ H1 H2); try assumption.
    exists []. simpl. rewrite app_nil_r. auto.
  - destruct (arrive rk k' v (data st) !! k') as [[[yt|] [yp|]]|] eqn:L'.
    + destruct (sub yt yp) as [diff|x] eqn:D.
      * destruct (abs_of_difference _ _ _ D) as [err A].
        rewrite (process_pair rk body io st mid v k' yt yp diff err
                   Acc K L' D A).
        destruct (log_error_to_csv_effect io mid yt yp err st)
          as (js & text & J & _ & Fj & _).
        cbn [snd data journal]. rewrite lookup_delete_ne by exact Hne.
        exists js. repeat split; [exact L|exact J|].
        eapply Forall_impl; [exact Fj|]. intros l Hl mid' err' ->.
        destruct Hl as [Hl|[e0 Hl]]; [|discriminate].
        inversion Hl; subst. intros K'. rewrite K in K'. inversion K'.
        contradiction.
      * rewrite (process_unsettled rk body io st mid v k' yt yp x Acc K L' D).
        simpl. rewrite arrive_lookup_ne by exact Hne.
        exists [handler_line x]. repeat split; [exact L|].
        constructor; [|constructor]. intros ? ? H.
        destruct (handler_line_no_record _ _ _ H).
    + rewrite (process_half rk body io st mid v k' _ Acc K L'); [|auto].
      simpl. rewrite arrive_lookup_ne by exact Hne.
      exists []. rewrite app_nil_r. auto.
    + rewrite (process_half rk body io st mid v k' _ Acc K L'); [|auto].
      simpl. rewrite arrive_lookup_ne by exact Hne.
      exists []. rewrite app_nil_r. auto.
    + rewrite (process_half rk body io st mid v k' _ Acc K L'); [|auto].
      simpl. rewrite arrive_lookup_ne by exact Hne.
      exists []. rewrite app_nil_r. auto.
    + rewrite (process_absent rk body io st mid v k' Acc K L').
      simpl. rewrite arrive_lookup_ne by exact Hne.
      exists [handler_line KeyError]. repeat split; [exact L|].
      constructor; [|constructor]. intros ? ? H.
      destruct (handler_line_no_record _ _ _ H).
Qed.

Lemma start_consuming_cons d ds st :
  snd (start_consuming os json_loads (d :: ds) st)
  = snd (start_consuming os json_loads ds
           (snd (process_message os json_loads
                   (routing_key d) (body d) (io_ok d) st))).
Proof. rewrite !start_consuming_all. reflexivity. Qed.

Lemma other_deliveries_keep_entry k e ds : forall st,
  data st !! k = Some e -> y_true e = None \/ y_pred e = None ->
  Forall (fun d => forall v, carries json_loads d k v ->
            routing_key d <> "y_true" /\ routing_key d <> "y_pred") ds ->
  exists js,
    data (snd (start_consuming os json_loads ds st)) !! k = Some e
    /\ journal (snd (start_consuming os json_loads ds st)) = journal st ++ js
    /\ Forall (no_record_of k) js.
Proof.
  induction ds as [|d ds IH]; intros st L Inc F.
  - exists []. simpl. rewrite app_nil_r. auto.
  - apply Forall_cons in F as [Hd F]. rewrite start_consuming_cons.
    destruct (other_delivery_keeps_entry (routing_key d) (body d) (io_ok d)
                st k e L Inc) as (js1 & L1 & J1 & F1).
    { intros mid v Acc K. apply (Hd v). exists mid. auto. }
    destruct (IH _ L1 Inc F) as (js2 & L2 & J2 & F2).
    exists (js1 ++ js2). rewrite L2, J2, J1, app_assoc.
    repeat split. apply Forall_app. auto.
Qed.

End Facts.
End MetricFacts.

(** ** Facts about the producer *)

Module FeaturesFacts.
Import Py Features.

Lemma getitem_in_range {A} (a : list A) (r : Z) x :
  0 <= r -> a !! Z.to_nat r = Some x -> getitem a r = Ok x.
Proof.
  intros H0 L. unfold getitem.
  pose proof (lookup_lt_Some _ _ _ L) as Hlt.
  assert ((r <? 0) = false) as -> by lia.
  assert ((0 <=? r) && (r <? Z.of_nat (length a)) = true)
    as -> by (apply andb_true_intro; split; lia).
  rewrite L. reflexivity.
Qed.

Lemma randint_outcomes_lookup low high i :
  (i < Z.to_nat (high - low))%nat ->
  randint_outcomes low high !! i = Some (low + Z.of_nat i).
Proof.
  intros H. unfold randint_outcomes.
  rewrite list_lookup_fmap, lookup_seq_lt by exact H. reflexivity.
Qed.

Lemma randint_outcomes_length low high :
  length (randint_outcomes low high) = Z.to_nat (high - low).
Proof. unfold randint_outcomes. rewrite length_map, length_seq. reflexivity. Qed.

Lemma elem_of_randint_outcomes low high r :
  r ∈ randint_outcomes low high <-> low <= r < high.
Proof.
  unfold randint_outcomes. rewrite list_elem_of_fmap. split.
  - intros (i & -> & Hi). apply elem_of_seq in Hi. lia.
  - intros H. exists (Z.to_nat (r - low)). split; [lia|].
    apply elem_of_seq. lia.
Qed.

Section Facts.
Variable json_dumps : pyval -> string.
Variable X : list (list float).
Variable y : list float.

Lemma tick_in_range r now channel :
  length X = length y -> r ∈ randint_outcomes 0 (shape0 X) ->
  exists target row,
    y !! Z.to_nat r = Some target /\ X !! Z.to_nat r = Some row
    /\ tick json_dumps X y r now channel
       = Ok (channel ++ published json_dumps now target row).
Proof.
  intros Len Hr. apply elem_of_randint_outcomes in Hr. unfold shape0 in Hr.
  destruct (lookup_lt_is_Some_2 X (Z.to_nat r)) as [row Hrow]; [lia|].
  destruct (lookup_lt_is_Some_2 y (Z.to_nat r)) as [target Ht]; [lia|].
  exists target, row. split; [exact Ht|]. split; [exact Hrow|].
  unfold tick, bind.
  rewrite (getitem_in_range y r target), (getitem_in_range X r row)
    by (assumption || lia).
  reflexivity.
Qed.

Lemma ticks_in_range draws : forall channel,
  length X = length y ->
  Forall (fun d => fst d ∈ randint_outcomes 0 (shape0 X)) draws ->
  exists out, ticks json_dumps X y draws channel = Ok (channel ++ out)
              /\ length out = (2 * length draws)%nat.
Proof.
  induction draws as [|[r now] draws IH]; intros channel Len F.
  - exists []. simpl. rewrite app_nil_r. auto.
  - apply Forall_cons in F as [Hr F].
    destruct (tick_in_range r now channel Len Hr) as (t & row & _ & _ & E).
    destruct (IH (channel ++ published json_dumps now t row) Len F)
      as (out & E' & L').
    exists (published json_dumps now t row ++ out). simpl. unfold bind at 1.
    rewrite E, E', <- app_assoc. split; [reflexivity|].
    unfold published. simpl. lia.
Qed.

End Facts.
End FeaturesFacts.

(** ** Facts about the visualizer *)

Module PlotFacts.
Import Py Plot.

Section Facts.
Variable os : os_name.
Variable frame series : Type.
Variable pd_read_csv : option string -> result frame.
Variable iloc_column : frame -> Z -> result series.
Variable draw : series -> result string.

Lemma tick_returns io st :
  fst (tick os frame series pd_read_csv iloc_column draw io st) = Ok tt.
Proof.
  unfold tick, try_except.
  match goal with |- context [match ?b st with _ => _ end] =>
    destruct (b st) as [[[]|e] st'] end; [reflexivity|].
  destruct e; reflexivity.
Qed.

Lemma tick_unreadable io st e :
  pd_read_csv (read_input os (files frame st)) = Raise e ->
  tick os frame series pd_read_csv iloc_column draw io st
  = (Ok tt, State frame (files frame st) (stdout frame st ++ [Failure frame e])).
Proof.
  intros E. unfold tick, try_except, mbind, read_csv. rewrite E.
  destruct e; reflexivity.
Qed.

Lemma loop_returns ios : forall st,
  fst (loop os frame series pd_read_csv iloc_column draw ios st) = Ok tt.
Proof.
  induction ios as [|io ios IH]; intros st; simpl; [reflexivity|].
  unfold mbind. pose proof (tick_returns io st) as R.
  destruct (tick os frame series pd_read_csv iloc_column draw io st) as [r st'].
  simpl in R. subst r. apply IH.
Qed.

End Facts.
End PlotFacts.

(** ** Facts about runs of the correlator *)

Module RunFacts.
Import Py Metric Spec MetricFacts.

Lemma float_abs_not_negative f :
  PrimFloat.ltb (PrimFloat.abs f) PrimFloat.zero = false.
Proof.
  rewrite ltb_spec, abs_spec.
  destruct (Prim2SF f) as [s|s| |s m e]; reflexivity.
Qed.

Lemma abs_not_negative v r : abs v = Ok r -> lt_zero r = false.
Proof.
  unfold abs, lt_zero.
  destruct (as_number v) as [[x|f]|]; intros E; inversion E; simpl;
    [lia|apply float_abs_not_negative].
Qed.

Lemma records_not (l : log_line) :
  (forall mid err, l <> InfoRecorded mid err) -> records [l] = [].
Proof. destruct l; intros H; try reflexivity. destruct (H _ _ eq_refl). Qed.

Lemma records_app j1 j2 : records (j1 ++ j2) = records j1 ++ records j2.
Proof. apply omap_app. Qed.

Lemma text_app rows1 rows2 : text (rows1 ++ rows2) = text rows1 +:+ text rows2.
Proof.
  induction rows1 as [|r rows1 IH]; [reflexivity|].
  simpl. fold (text (rows1 ++ rows2)). fold (text rows1).
  rewrite IH. symmetry. apply append_assoc.
Qed.

(** A file system that differs from another by an append to one path. *)
Lemma file_append_effect (os : os_name) (path t : string)
    (fs' fs : gmap (list string) string) :
  fs' = fs /\ t = EmptyString \/ fs' = file_append os path t fs ->
  (forall p, p <> components os path -> fs' !! p = fs !! p)
  /\ default EmptyString (fs' !! components os path)
     = default EmptyString (fs !! components os path) +:+ t.
Proof.
  intros [[-> ->]| ->].
  - split; [reflexivity|]. symmetry. apply append_empty_r.
  - unfold file_append. split.
    + intros p H. apply lookup_insert_ne. congruence.
    + rewrite lookup_insert_eq. reflexivity.
Qed.

Section Facts.
Variable os : os_name.
Variable json_loads : list Byte.byte -> result pyval.

(** The call of an accepted message with a hashable id, by what lines
    38-43 leave under the id. *)
Lemma process_keyed rk body io st mid v k :
  accepted json_loads body mid v -> key_of mid = Ok k ->
  process_message os json_loads rk body io st =
  (Ok tt,
   let arrived := State (arrive rk k v (data st)) (files st) (journal st) in
   match arrive rk k v (data st) !! k with
   | Some (Entry (Some yt) (Some yp)) =>
       match (do diff <- sub yt yp; abs diff) with
       | Ok err =>
           State (delete k (data st))
             (files (snd (log_error_to_csv os io mid yt yp err st)))
             (journal (snd (log_error_to_csv os io mid yt yp err st)))
       | Raise x => logged (handler_line x) arrived
       end
   | Some _ => arrived
   | None => logged (handler_line KeyError) arrived
   end).
Proof.
  intros Acc K. cbv zeta.
  destruct (arrive rk k v (data st) !! k) as [[[yt|] [yp|]]|] eqn:L.
  - destruct (sub yt yp) as [diff|x] eqn:D; simpl.
    + destruct (abs_of_difference _ _ _ D) as [err A]. rewrite A.
      apply (process_pair os json_loads rk body io st mid v k yt yp diff err
               Acc K L D A).
    + apply (process_unsettled os json_loads rk body io st mid v k yt yp x
               Acc K L D).
  - apply (process_half os json_loads rk body io st mid v k _ Acc K L); auto.
  - apply (process_half os json_loads rk body io st mid v k _ Acc K L); auto.
  - apply (process_half os json_loads rk body io st mid v k _ Acc K L); auto.
  - apply (process_absent os json_loads rk body io st mid v k Acc K L).
Qed.

(** What one call adds to the journal and to the files: lines, and text
    at the end of the log; with all granted, the text is the rows of the
    records among the lines. *)
Lemma process_message_step rk body io st :
  exists js text,
    journal (snd (process_message os json_loads rk body io st))
    = journal st ++ js
    /\ (forall p, p <> components os (csv_path os) ->
          files (snd (process_message os json_loads rk body io st)) !! p
          = files st !! p)
    /\ default EmptyString
         (files (snd (process_message os json_loads rk body io st))
            !! components os (csv_path os))
       = default EmptyString (files st !! components os (csv_path os))
         +:+ text
    /\ Forall (fun r => lt_zero (snd r) = false) (records js)
    /\ (io = Granted ->
        exists rows, text = Spec.text rows /\ Forall2 row_of (records js) rows).
Proof.
  assert (Quiet : forall l, (forall mid err, l <> InfoRecorded mid err) ->
            exists js text,
              journal st ++ [l] = journal st ++ js
              /\ (forall p, p <> components os (csv_path os) ->
                    files st !! p = files st !! p)
              /\ default EmptyString (files st !! components os (csv_path os))
                 = default EmptyString (files st !! components os (csv_path os))
                   +:+ text
              /\ Forall (fun r => lt_zero (snd r) = false) (records js)
              /\ (io = Granted ->
                  exists rows, text = Spec.text rows
                               /\ Forall2 row_of (records js) rows)).
  { intros l Hl. exists [l], EmptyString. rewrite (records_not l Hl).
    rewrite append_empty_r. repeat split; [constructor|].
    intros _. exists []. split; [reflexivity|constructor]. }
  assert (Silent : exists js text,
            journal st = journal st ++ js
            /\ (forall p, p <> components os (csv_path os) ->
                  files st !! p = files st !! p)
            /\ default EmptyString (files st !! components os (csv_path os))
               = default EmptyString (files st !! components os (csv_path os))
                 +:+ text
            /\ Forall (fun r => lt_zero (snd r) = false) (records js)
            /\ (io = Granted ->
                exists rows, text = Spec.text rows
                             /\ Forall2 row_of (records js) rows)).
  { exists [], EmptyString. rewrite app_nil_r, append_empty_r.
    repeat split; [constructor|].
    intros _. exists []. split; [reflexivity|constructor]. }
  destruct (process_checked os json_loads rk body io st)
    as [(l & Hl & ->)|(mid & v & Acc)]; [exact (Quiet l Hl)|].
  destruct (key_of mid) as [k|x] eqn:K.
  2:{ rewrite (process_unhashable os json_loads rk body io st mid v x Acc K).
      exact (Quiet _ (handler_line_no_record x)). }
  rewrite (process_keyed rk body io st mid v k Acc K). cbv zeta.
  destruct (arrive rk k v (data st) !! k) as [[[yt|] [yp|]]|];
    try exact Silent; [|exact (Quiet _ (handler_line_no_record KeyError))].
  destruct (sub yt yp) as [diff|x] eqn:D; simpl;
    [|exact (Quiet _ (handler_line_no_record x))].
  destruct (abs diff) as [err|x] eqn:A;
    [|exact (Quiet _ (handler_line_no_record x))].
  destruct (log_error_to_csv_effect os io mid yt yp err st)
    as (js & text & J & F & Fj & G).
  destruct (file_append_effect os (csv_path os) text _ _ F) as [Fo Fc].
  exists js, text. cbn [snd files journal].
  split; [exact J|]. split; [exact Fo|]. split; [exact Fc|]. split.
  - apply Forall_forall. intros [mid' err'] Hr.
    apply list_elem_of_omap in Hr as (l & Hl & Hm).
    destruct (proj1 (Forall_forall _ _) Fj l Hl) as [->|[e ->]];
      [|discriminate].
    inversion Hm; subst. apply (abs_not_negative _ _ A).
  - intros Gr. destruct (G Gr) as [[-> R]|[-> [e ->]]].
    + exists [text]. split; [symmetry; apply append_empty_r|].
      constructor; [|constructor]. exists yt, yp, diff. auto.
    + exists []. split; [reflexivity|constructor].
Qed.

(** What a run of the consuming loop adds to the journal and the files. *)
Lemma start_consuming_run ds : forall st,
  exists js text,
    journal (snd (start_consuming os json_loads ds st)) = journal st ++ js
    /\ (forall p, p <> components os (csv_path os) ->
          files (snd (start_consuming os json_loads ds st)) !! p
          = files st !! p)
    /\ default EmptyString
         (files (snd (start_consuming os json_loads ds st))
            !! components os (csv_path os))
       = default EmptyString (files st !! components os (csv_path os))
         +:+ text
    /\ Forall (fun r => lt_zero (snd r) = false) (records js)
    /\ (Forall (fun d => io_ok d = Granted) ds ->
        exists rows, text = Spec.text rows /\ Forall2 row_of (records js) rows).
Proof.
  induction ds as [|d ds IH]; intros st.
  - exists [], EmptyString. simpl. rewrite app_nil_r, append_empty_r.
    repeat split; [constructor|].
    intros _. exists []. split; [reflexivity|constructor].
  - rewrite start_consuming_cons.
    destruct (process_message_step (routing_key d) (body d) (io_ok d) st)
      as (js1 & text1 & J1 & O1 & C1 & N1 & G1).
    destruct (IH (snd (process_message os json_loads (routing_key d) (body d)
                         (io_ok d) st)))
      as (js2 & text2 & J2 & O2 & C2 & N2 & G2).
    exists (js1 ++ js2), (text1 +:+ text2).
    rewrite J2, J1, C2, C1, app_assoc, records_app, append_assoc.
    split; [reflexivity|]. split; [|split; [reflexivity|split]].
    + intros p H. rewrite (O2 p H). apply O1, H.
    + apply Forall_app. auto.
    + intros F. apply Forall_cons in F as [Fd F].
      destruct (G1 Fd) as (rows1 & -> & R1).
      destruct (G2 F) as (rows2 & -> & R2).
      exists (rows1 ++ rows2). split; [symmetry; apply text_app|].
      apply Forall2_app; assumption.
Qed.

(** A ground truth and a prediction whose ids are one key, in either
    order, from a state with no entry under the key: the second call
    settles the pair, with the id of the second message. *)
Lemma pair_settled body_t body_p io io2 mid_t mid_p yt yp k diff err st :
  accepted json_loads body_t mid_t yt -> accepted json_loads body_p mid_p yp ->
  key_of mid_t = Ok k -> key_of mid_p = Ok k ->
  sub yt yp = Ok diff -> abs diff = Ok err -> data st !! k = None ->
  snd (process_message os json_loads "y_pred" body_p io2
         (snd (process_message os json_loads "y_true" body_t io st)))
  = State (data st)
      (files (snd (log_error_to_csv os io2 mid_p yt yp err st)))
      (journal (snd (log_error_to_csv os io2 mid_p yt yp err st)))
  /\ snd (process_message os json_loads "y_true" body_t io2
            (snd (process_message os json_loads "y_pred" body_p io st)))
     = State (data st)
         (files (snd (log_error_to_csv os io2 mid_t yt yp err st)))
         (journal (snd (log_error_to_csv os io2 mid_t yt yp err st))).
Proof.
  intros At Ap Kt Kp S A L. split.
  - rewrite (process_half os json_loads "y_true" body_t io st mid_t yt k
               (Entry (Some yt) None) At Kt);
      [|rewrite arrive_lookup, L; reflexivity|auto].
    cbn [snd].
    rewrite (process_pair os json_loads "y_pred" body_p io2 _ mid_p yp k yt yp
               diff err Ap Kp); [| |exact S|exact A].
    + destruct (log_error_to_csv_frame os io2 mid_p yt yp err
                  (arrive "y_true" k yt (data st)) st) as [-> ->].
      cbn [snd data]. rewrite delete_arrive, (delete_id _ _ L). reflexivity.
    + simpl. rewrite arrive_lookup. simpl. rewrite arrive_lookup. reflexivity.
  - rewrite (process_half os json_loads "y_pred" body_p io st mid_p yp k
               (Entry None (Some yp)) Ap Kp);
      [|rewrite arrive_lookup, L; reflexivity|auto].
    cbn [snd].
    rewrite (process_pair os json_loads "y_true" body_t io2 _ mid_t yt k yt yp
               diff err At Kt); [| |exact S|exact A].
    + destruct (log_error_to_csv_frame os io2 mid_t yt yp err
                  (arrive "y_pred" k yp (data st)) st) as [-> ->].
      cbn [snd data]. rewrite delete_arrive, (delete_id _ _ L). reflexivity.
    + simpl. rewrite arrive_lookup. simpl. rewrite arrive_lookup. reflexivity.
Qed.

Lemma arrive_holds_a_half rk k v d :
  holds_a_half d -> holds_a_half (arrive rk k v d).
Proof.
  intros H k' e. unfold arrive.
  destruct (String.eqb rk "y_true");
    [|destruct (String.eqb rk "y_pred"); [|apply H]];
    (destruct (decide (k = k')) as [->|Hne];
     [rewrite lookup_insert_eq; intros E; inversion E; simpl; auto; fail
     |rewrite lookup_insert_ne by exact Hne; apply H]).
Qed.

Lemma delete_holds_a_half k d : holds_a_half d -> holds_a_half (delete k d).
Proof. intros H k' e L. apply lookup_delete_Some in L as [_ L]. eapply H, L. Qed.

Lemma holds_a_half_step rk body io st :
  holds_a_half (data st) ->
  holds_a_half (data (snd (process_message os json_loads rk body io st))).
Proof.
  intros H.
  destruct (process_checked os json_loads rk body io st)
    as [(l & _ & ->)|(mid & v & Acc)]; [exact H|].
  destruct (key_of mid) as [k|x] eqn:K.
  2:{ rewrite (process_unhashable os json_loads rk body io st mid v x Acc K).
      exact H. }
  rewrite (process_keyed rk body io st mid v k Acc K). cbv zeta.
  pose proof (arrive_holds_a_half rk k v _ H) as Ha.
  pose proof (delete_holds_a_half k _ H) as Hd.
  destruct (arrive rk k v (data st) !! k) as [[[yt|] [yp|]]|]; simpl;
    try exact Ha.
  destruct (do diff <- sub yt yp; abs diff) as [err|x]; simpl; [|exact Ha].
  exact Hd.
Qed.

Lemma reachable_holds_a_half st :
  reachable os json_loads st -> holds_a_half (data st).
Proof.
  induction 1 as [fs|st rk body io _ IH].
  - intros k e L. simpl in L. rewrite lookup_empty in L. discriminate.
  - apply holds_a_half_step, IH.
Qed.

Lemma state_eta (st : state) : State (data st) (files st) (journal st) = st.
Proof. destruct st; reflexivity. Qed.

(** A call for a queue that is neither of the two, on a state whose
    complete entries cannot be settled: no entry and no file changes. *)
Lemma process_other_queue rk body io st :
  only_unsettled (data st) -> rk <> "y_true" -> rk <> "y_pred" ->
  snd (process_message os json_loads rk body io st) = st
  \/ exists l, (forall mid err, l <> InfoRecorded mid err)
               /\ snd (process_message os json_loads rk body io st)
                  = logged l st.
Proof.
  intros U H1 H2.
  destruct (process_checked os json_loads rk body io st)
    as [(l & Hl & ->)|(mid & v & Acc)]; [right; exists l; auto|].
  destruct (key_of mid) as [k|x] eqn:K.
  2:{ rewrite (process_unhashable os json_loads rk body io st mid v x Acc K).
      right. exists (handler_line x). split; [apply handler_line_no_record|].
      reflexivity. }
  rewrite (process_keyed rk body io st mid v k Acc K). cbv zeta.
  rewrite (arrive_other_queue rk k v _ H1 H2), state_eta.
  destruct (data st !! k) as [[[yt|] [yp|]]|] eqn:L; simpl; auto.
  - destruct (U k yt yp L) as [x Hx]. rewrite Hx. simpl.
    right. exists (handler_line x). split; [apply handler_line_no_record|].
    reflexivity.
  - right. exists (handler_line KeyError).
    split; [apply handler_line_no_record|reflexivity].
Qed.

Lemma start_consuming_snoc ds d st :
  snd (start_consuming os json_loads (ds ++ [d]) st)
  = snd (process_message os json_loads (routing_key d) (body d) (io_ok d)
           (snd (start_consuming os json_loads ds st))).
Proof. rewrite !start_consuming_all. simpl. rewrite foldl_app. reflexivity. Qed.

(** The half that finds its partner pending, after deliveries that
    bring nothing for the id on the two queues. *)
Lemma pair_settled_after first rest second mid1 mid2 v1 v2 k yt yp diff err st :
  routing_key first = "y_true" /\ routing_key second = "y_pred"
    /\ yt = v1 /\ yp = v2
  \/ routing_key first = "y_pred" /\ routing_key second = "y_true"
     /\ yt = v2 /\ yp = v1 ->
  accepted json_loads (body first) mid1 v1 ->
  accepted json_loads (body second) mid2 v2 ->
  key_of mid1 = Ok k -> key_of mid2 = Ok k -> data st !! k = None ->
  Forall (fun d => forall v, carries json_loads d k v ->
            routing_key d <> "y_true" /\ routing_key d <> "y_pred") rest ->
  sub yt yp = Ok diff -> abs diff = Ok err ->
  snd (start_consuming os json_loads (first :: rest ++ [second]) st)
  = State
      (delete k (data (snd (start_consuming os json_loads (first :: rest) st))))
      (files (snd (log_error_to_csv os (io_ok second) mid2 yt yp err
                     (snd (start_consuming os json_loads (first :: rest) st)))))
      (journal (snd (log_error_to_csv os (io_ok second) mid2 yt yp err
                       (snd (start_consuming os json_loads (first :: rest) st))))).
Proof.
  intros Rk A1 A2 K1 K2 L F S A.
  rewrite app_comm_cons, start_consuming_snoc.
  set (e := if String.eqb (routing_key first) "y_true"
            then Entry (Some v1) None else Entry None (Some v1)).
  assert (Le : arrive (routing_key first) k v1 (data st) !! k = Some e).
  { rewrite arrive_lookup, L. subst e.
    destruct Rk as [(-> & _)|(-> & _)]; reflexivity. }
  assert (Inc : y_true e = None \/ y_pred e = None)
    by (subst e; destruct (String.eqb _ _); simpl; auto).
  assert (Lb : data (snd (start_consuming os json_loads (first :: rest) st)) !! k
               = Some e).
  { rewrite start_consuming_cons.
    rewrite (process_half os json_loads (routing_key first) (body first)
               (io_ok first) st mid1 v1 k e A1 K1 Le Inc).
    destruct (other_deliveries_keep_entry os json_loads k e rest
                (State (arrive (routing_key first) k v1 (data st)) (files st)
                   (journal st)) Le Inc F) as (js & Hd & _).
    exact Hd. }
  assert (Lp : arrive (routing_key second) k v2
                 (data (snd (start_consuming os json_loads (first :: rest) st)))
                 !! k
               = Some (Entry (Some yt) (Some yp))).
  { rewrite arrive_lookup, Lb. subst e.
    destruct Rk as [(R1 & R2 & -> & ->)|(R1 & R2 & -> & ->)];
      rewrite R1, R2; reflexivity. }
  rewrite (process_pair os json_loads (routing_key second) (body second)
             (io_ok second) _ mid2 v2 k yt yp diff err A2 K2 Lp S A).
  reflexivity.
Qed.

Lemma arrive_lacks r rk k v d :
  rk <> queue_of r -> lacks r d -> lacks r (arrive rk k v d).
Proof.
  intros Hq H k' e. unfold arrive.
  assert (Hd : half r (default (Entry None None) (d !! k)) = None).
  { destruct (d !! k) as [e'|] eqn:L; [apply (H k e' L)|destruct r; reflexivity]. }
  destruct (String.eqb_spec rk "y_true") as [->|_];
    [|destruct (String.eqb_spec rk "y_pred") as [->|_]; [|apply H]];
    (destruct (decide (k = k')) as [->|Hne];
     [rewrite lookup_insert_eq; intros E; inversion E; subst e;
      destruct r; simpl in *; congruence
     |rewrite lookup_insert_ne by exact Hne; apply H]).
Qed.

(** A call for a queue that does not fill the role, when no entry holds
    the role: none holds it after, no file changes, nothing is recorded. *)
Lemma process_message_lacks r rk body io st :
  rk <> queue_of r -> lacks r (data st) ->
  lacks r (data (snd (process_message os json_loads rk body io st)))
  /\ files (snd (process_message os json_loads rk body io st)) = files st
  /\ records (journal (snd (process_message os json_loads rk body io st)))
     = records (journal st).
Proof.
  intros Hq H.
  assert (Lg : forall l st0, (forall mid err, l <> InfoRecorded mid err) ->
                 records (journal (logged l st0)) = records (journal st0)).
  { intros l st0 Hl. simpl. rewrite records_app, (records_not l Hl).
    apply app_nil_r. }
  destruct (process_checked os json_loads rk body io st)
    as [(l & Hl & ->)|(mid & v & Acc)];
    [split; [exact H|]; split; [reflexivity|]; apply Lg, Hl|].
  destruct (key_of mid) as [k|x] eqn:K.
  2:{ rewrite (process_unhashable os json_loads rk body io st mid v x Acc K).
      split; [exact H|]. split; [reflexivity|].
      apply Lg, handler_line_no_record. }
  rewrite (process_keyed rk body io st mid v k Acc K). cbv zeta.
  pose proof (arrive_lacks r rk k v _ Hq H) as Ha.
  destruct (arrive rk k v (data st) !! k) as [[[yt|] [yp|]]|] eqn:L; simpl;
    auto.
  - specialize (Ha k _ L). destruct r; discriminate.
  - split; [exact Ha|]. split; [reflexivity|].
    rewrite records_app. simpl. apply app_nil_r.
Qed.

Lemma start_consuming_lacks r ds : forall st,
  Forall (fun d => routing_key d <> queue_of r) ds -> lacks r (data st) ->
  lacks r (data (snd (start_consuming os json_loads ds st)))
  /\ files (snd (start_consuming os json_loads ds st)) = files st
  /\ records (journal (snd (start_consuming os json_loads ds st)))
     = records (journal st).
Proof.
  induction ds as [|d ds IH]; intros st F H; [auto|].
  apply Forall_cons in F as [Hd F]. rewrite start_consuming_cons.
  destruct (process_message_lacks r (routing_key d) (body d) (io_ok d) st Hd H)
    as (H1 & F1 & R1).
  destruct (IH _ F H1) as (H2 & F2 & R2).
  rewrite F2, R2. auto.
Qed.

End Facts.
End RunFacts.

(** ** Facts about the visualizer's files *)

Module VisualizerFacts.
Import Py Plot.

Section Facts.
Variable os : os_name.
Variable frame series : Type.
Variable pd_read_csv : option string -> result frame.
Variable iloc_column : frame -> Z -> result series.
Variable draw : series -> result string.

(** A pass of the visualizer, by what its calls return. *)
Lemma tick_eq io st :
  tick os frame series pd_read_csv iloc_column draw io st =
  (Ok tt,
   match pd_read_csv (read_input os (files frame st)) with
   | Raise e => State frame (files frame st) (stdout frame st ++ [Failure frame e])
   | Ok df =>
       match (do col <- iloc_column df 3; draw col) with
       | Raise e =>
           State frame (files frame st)
             (stdout frame st ++ [Head frame df; Failure frame e])
       | Ok image =>
           if io
           then State frame (<[components os png_path := image]> (files frame st))
                  (stdout frame st ++ [Head frame df])
           else State frame (files frame st)
                  (stdout frame st ++ [Head frame df; Failure frame OSError])
       end
   end).
Proof.
  unfold tick, try_except, mbind, read_csv, print, lift, savefig, raise.
  destruct (pd_read_csv _) as [df|e]; [|destruct e; reflexivity]. simpl.
  destruct (iloc_column df 3) as [col|e]; simpl;
    [|rewrite <- app_assoc; destruct e; reflexivity].
  destruct (draw col) as [image|e]; simpl;
    [|rewrite <- app_assoc; destruct e; reflexivity].
  destruct io; simpl; [reflexivity|rewrite <- app_assoc; reflexivity].
Qed.

Lemma tick_files io st p :
  p <> components os png_path ->
  files frame (snd (tick os frame series pd_read_csv iloc_column draw io st)) !! p
  = files frame st !! p.
Proof.
  intros H. rewrite tick_eq. simpl.
  destruct (pd_read_csv _) as [df|e]; [|reflexivity].
  destruct (do col <- iloc_column df 3; draw col) as [image|e]; [|reflexivity].
  destruct io; [|reflexivity]. simpl. apply lookup_insert_ne. congruence.
Qed.

Lemma loop_cons io ios st :
  snd (loop os frame series pd_read_csv iloc_column draw (io :: ios) st)
  = snd (loop os frame series pd_read_csv iloc_column draw ios
           (snd (tick os frame series pd_read_csv iloc_column draw io st))).
Proof. simpl. unfold mbind. rewrite tick_eq. reflexivity. Qed.

Lemma loop_files ios : forall st p,
  p <> components os png_path ->
  files frame (snd (loop os frame series pd_read_csv iloc_column draw ios st)) !! p
  = files frame st !! p.
Proof.
  induction ios as [|io ios IH]; intros st p H; [reflexivity|].
  rewrite loop_cons, IH by exact H. apply tick_files, H.
Qed.

Lemma png_is_not_the_input : components os csv_path <> components os png_path.
Proof. destruct os; vm_compute; discriminate. Qed.

Lemma loop_unreadable ios : forall st e,
  pd_read_csv (read_input os (files frame st)) = Raise e ->
  loop os frame series pd_read_csv iloc_column draw ios st
  = (Ok tt, State frame (files frame st)
              (stdout frame st ++ List.map (fun _ => Failure frame e) ios)).
Proof.
  induction ios as [|io ios IH]; intros st e E; simpl.
  - rewrite app_nil_r. destruct st; reflexivity.
  - unfold mbind. rewrite tick_eq, E.
    rewrite (IH _ e) by exact E. simpl. rewrite <- app_assoc. reflexivity.
Qed.

End Facts.

Lemma correlator_file_is_not_the_input os :
  components os csv_path <> components os (Metric.csv_path os).
Proof. destruct os; vm_compute; discriminate. Qed.

End VisualizerFacts.

(** ** Facts about the producer's loop *)

Module ProducerFacts.
Import Py.

Lemma ticks_routing_keys json_dumps X y draws : forall channel out,
  Features.ticks json_dumps X y draws channel = Ok out ->
  Forall (fun p => Features.routing_key p = "y_true"
                   \/ Features.routing_key p = "features") channel ->
  Forall (fun p => Features.routing_key p = "y_true"
                   \/ Features.routing_key p = "features") out.
Proof.
  induction draws as [|[r now] draws IH]; intros channel out E F; simpl in E.
  - inversion E; subst. exact F.
  - unfold bind at 1 in E.
    destruct (Features.tick json_dumps X y r now channel) as [c|e] eqn:T;
      [|discriminate].
    apply (IH c out E). unfold Features.tick, bind in T.
    destruct (Features.getitem y r) as [t|]; [|discriminate].
    destruct (Features.getitem X r) as [row|]; [|discriminate].
    inversion T; subst c. apply Forall_app. split; [exact F|].
    constructor; [left; reflexivity|].
    constructor; [right; reflexivity|constructor].
Qed.

End ProducerFacts.

(** ** Facts about the rendering of scalars *)

Module RenderFacts.
Import Py Metric Plot MetricFacts.

Section Characters.
Variable p : ascii -> bool.
Hypothesis Hp :
  forall c, In c (list_ascii_of_string "0123456789.-+einfaNoTruFls") ->
    p c = true.

Lemma string_forall_app a b :
  string_forall p (a +:+ b) = string_forall p a && string_forall p b.
Proof.
  induction a as [|c a IH]; [reflexivity|].
  change (p c && string_forall p (a +:+ b)
          = p c && string_forall p a && string_forall p b).
  rewrite IH. apply andb_assoc.
Qed.

Lemma string_forall_substring s : forall n m,
  string_forall p s = true -> string_forall p (substring n m s) = true.
Proof.
  induction s as [|c s IH]; intros n m H.
  - destruct n, m; reflexivity.
  - simpl in H. apply andb_true_iff in H as [Hc Hs].
    destruct n; [destruct m; [reflexivity|]|apply IH, Hs].
    simpl. rewrite Hc. apply IH, Hs.
Qed.

Lemma string_forall_zeros n : string_forall p (zeros n) = true.
Proof.
  induction n as [|n IH]; [reflexivity|].
  simpl. rewrite IH, Hp by (simpl; tauto). reflexivity.
Qed.

Lemma string_forall_uint d :
  string_forall p (DecimalString.NilEmpty.string_of_uint d) = true.
Proof.
  induction d; simpl; rewrite ?IHd, ?Hp by (simpl; tauto); reflexivity.
Qed.

Lemma string_forall_str_of_Z z : string_forall p (str_of_Z z) = true.
Proof.
  unfold str_of_Z, DecimalString.NilZero.string_of_int,
    DecimalString.NilZero.string_of_uint.
  destruct (Z.to_int z) as [d|d]; destruct d; simpl;
    rewrite ?string_forall_uint, ?Hp by (simpl; tauto); reflexivity.
Qed.

Lemma string_forall_layout ds decpt :
  string_forall p ds = true -> string_forall p (layout ds decpt) = true.
Proof.
  intros H. unfold layout.
  repeat match goal with
  | |- context [if ?b then _ else _] => destruct b
  end;
    rewrite ?string_forall_app, ?string_forall_zeros, ?string_forall_str_of_Z,
      ?string_forall_substring, ?H by exact H;
    simpl; rewrite ?Hp by (simpl; tauto); reflexivity.
Qed.

Lemma string_forall_float_repr f : string_forall p (float_repr f) = true.
Proof.
  unfold float_repr. destruct (Prim2SF f) as [s|s| |s m e].
  - destruct s; simpl; rewrite ?Hp by (simpl; tauto); reflexivity.
  - destruct s; simpl; rewrite ?Hp by (simpl; tauto); reflexivity.
  - simpl; rewrite ?Hp by (simpl; tauto); reflexivity.
  - destruct (shortest 1400 (Z.pos m) e (decimal_bound e)) as [c k].
    rewrite string_forall_app, string_forall_layout
      by apply string_forall_str_of_Z.
    destruct s; simpl; rewrite ?Hp by (simpl; tauto); reflexivity.
Qed.


End Characters.

Lemma has_surrogate_ascii s :
  string_forall (fun c => (nat_of_ascii c <? 128)%nat) s = true ->
  has_surrogate s = false.
Proof.
  induction s as [|a s IH]; [reflexivity|].
  intros H. simpl in H. apply andb_true_iff in H as [Ha Hs].
  cbn [has_surrogate]. destruct s as [|b s']; [reflexivity|].
  rewrite (IH Hs), orb_false_r.
  apply Nat.ltb_lt in Ha.
  destruct (Nat.eqb_spec (nat_of_ascii a) 237) as [E|_]; [lia|reflexivity].
Qed.

Lemma plain_characters c :
  In c (list_ascii_of_string "0123456789.-+einfaNoTruFls") ->
  plain_char c = true.
Proof.
  intros H. simpl in H.
  repeat (destruct H as [<-|H]; [reflexivity|]). destruct H.
Qed.

Lemma ascii_characters c :
  In c (list_ascii_of_string "0123456789.-+einfaNoTruFls") ->
  (nat_of_ascii c <? 128)%nat = true.
Proof.
  intros H. simpl in H.
  repeat (destruct H as [<-|H]; [reflexivity|]). destruct H.
Qed.

(** A record cut at its commas. *)
Lemma fields_plain a : plain a = true -> fields a = [a].
Proof.
  induction a as [|c a IH]; [reflexivity|].
  unfold plain. simpl. intros H. apply andb_true_iff in H as [Hc Ha].
  rewrite (IH Ha). unfold plain_char in Hc. apply negb_true_iff in Hc.
  apply orb_false_iff in Hc as [Hc _]. apply orb_false_iff in Hc as [Hc _].
  apply orb_false_iff in Hc as [Hc _]. rewrite Hc. reflexivity.
Qed.

Lemma fields_cons a r :
  plain a = true -> fields (a +:+ "," +:+ r) = a :: fields r.
Proof.
  induction a as [|c a IH]; [reflexivity|].
  unfold plain. simpl. intros H. apply andb_true_iff in H as [Hc Ha].
  change (String c a +:+ "," +:+ r) with (String c (a +:+ "," +:+ r)).
  cbn [fields]. rewrite (IH Ha). unfold plain_char in Hc.
  apply negb_true_iff in Hc.
  apply orb_false_iff in Hc as [Hc _]. apply orb_false_iff in Hc as [Hc _].
  apply orb_false_iff in Hc as [Hc _]. rewrite Hc. reflexivity.
Qed.

Lemma fields_four a b c d :
  plain a = true -> plain b = true -> plain c = true -> plain d = true ->
  fields (a +:+ "," +:+ b +:+ "," +:+ c +:+ "," +:+ d) = [a; b; c; d].
Proof.
  intros Ha Hb Hc Hd.
  rewrite (fields_cons a _ Ha), (fields_cons b _ Hb), (fields_cons c _ Hc),
    (fields_plain d Hd). reflexivity.
Qed.






End RenderFacts.

(** ** The properties of the specification *)

Module Claims.
Import Py Metric Spec MetricFacts FeaturesFacts.

(** C2: in every state the script reaches, an entry of [data] that holds
    both a ground truth and a prediction is one whose difference raises
    (a value that is not a number, or an int beyond the floats): every
    pair the handler can subtract is deleted in the call that completes
    it; in particular no entry is complete while all values held are
    floats. *)
Theorem complete_entries_are_unsettled os json_loads st :
  reachable os json_loads st ->
  only_unsettled (data st)
  /\ (all_floats (data st) -> no_complete_entry (data st)).
Proof.
  intros R. pose proof (reachable_only_unsettled os json_loads st R) as U.
  split; [exact U|].
  intros F k [[yt|] [yp|]] L; simpl; auto.
  destruct (F k _ yt L) as [f ->]; [simpl; auto|].
  destruct (F k _ yp L) as [g ->]; [simpl; auto|].
  destruct (U k _ _ L) as [x Hx]. rewrite sub_floats in Hx. discriminate.
Qed.

Lemma complete_entries_witness :
  only_unsettled (data (deliver Nt listed_prediction_7 (deliver Nt target_7 initial)))
  /\ (all_floats (data (deliver Nt listed_prediction_7 (deliver Nt target_7 initial))) ->
      no_complete_entry (data (deliver Nt listed_prediction_7 (deliver Nt target_7 initial)))).
Proof.
  apply (complete_entries_are_unsettled Nt Json.loads).
  apply reach_step, reach_step, reach_start.
Defined.

(** C2 as stated fails: after the call that brings the second half, the
    entry of id 7 holds both halves. *)
Lemma complete_entry_survives :
  reachable Nt Json.loads (deliver Nt target_7 initial)
  /\ ~ no_complete_entry
        (data (deliver Nt listed_prediction_7 (deliver Nt target_7 initial))).
Proof.
  split; [apply reach_step, reach_start|].
  intros H.
  assert (L : data (deliver Nt listed_prediction_7 (deliver Nt target_7 initial))
              !! KInt 7
              = Some (Entry (Some (PFloat 151)) (Some (PList [PFloat 150.5])))).
  { vm_compute. reflexivity. }
  destruct (H _ _ L); discriminate.
Qed.

(** An int beyond the floats is the other way to a difference that
    raises: the pair of id 7 stays complete here too. *)
Example huge_int_pair_survives :
  sub (PInt (10 ^ 400)) (PFloat 1.5) = Raise OverflowError
  /\ data (deliver Nt later_prediction_7 (deliver Nt huge_target_7 initial))
       !! KInt 7
     = Some (Entry (Some (PInt (10 ^ 400))) (Some (PFloat 1.5))).
Proof. split; vm_compute; reflexivity. Qed.

(** C3: a malformed payload (one that does not decode, an object
    without an id, an object with neither value field) makes the handler
    return normally with [data] and the files as they were: it leaves one
    line in the journal and no row. *)
Theorem malformed_message_discarded os json_loads rk body io st :
  malformed (json_loads body) ->
  exists l, process_message os json_loads rk body io st = (Ok tt, logged l st).
Proof.
  intros [[e E]|(d & E & [I|[B P]])].
  - eexists. apply process_undecodable, E.
  - exists (WarningNoId (PDict d)). apply process_falsy_id; [exact E|].
    rewrite I. reflexivity.
  - destruct (truthy (default PNone (assoc "id" d))) eqn:T.
    + exists (WarningNoValue (PDict d)). apply process_no_value; [exact E|exact T|].
      unfold message_value, get, bind. rewrite B, P. reflexivity.
    + exists (WarningNoId (PDict d)). apply process_falsy_id; [exact E|exact T].
Qed.

Lemma malformed_message_witness :
  exists l, process_message Nt Json.loads "y_true"
              (Json.payload "{'id': 1000.0}") true initial
            = (Ok tt, logged l initial).
Proof.
  apply (malformed_message_discarded Nt Json.loads).
  right. exists [("id", PFloat 1000)]. split; [vm_compute; reflexivity|].
  right. split; reflexivity.
Defined.

(** C4: the handler returns normally on every body, routing key, state
    and answer of the file system, so the consuming loop runs the
    callback on every delivery that comes. *)
Theorem handler_never_raises os json_loads :
  (forall rk body io st,
     fst (process_message os json_loads rk body io st) = Ok tt)
  /\ (forall ds st,
        start_consuming os json_loads ds st =
        (Ok tt, foldl (fun s d => snd (process_message os json_loads
                                         (routing_key d) (body d) (io_ok d) s))
                  st ds)).
Proof.
  split; [apply process_message_returns|intros; apply start_consuming_all].
Qed.

(** C10: on either platform the path the correlator appends to differs
    from the path the visualizer reads, also as lists of components, and
    no call of the handler changes what the visualizer is given. *)
Theorem correlator_and_visualizer_paths_differ os :
  Metric.csv_path os <> Plot.csv_path
  /\ components os (Metric.csv_path os) <> components os Plot.csv_path
  /\ forall json_loads rk body io st,
       Plot.read_input os
         (Metric.files (snd (process_message os json_loads rk body io st)))
       = Plot.read_input os (Metric.files st).
Proof.
  assert (C : components os (Metric.csv_path os)
              <> components os Plot.csv_path)
    by (destruct os; vm_compute; discriminate).
  split; [destruct os; vm_compute; discriminate|].
  split; [exact C|].
  intros json_loads rk body io st. unfold Plot.read_input.
  destruct (process_message_cases os json_loads rk body io st)
    as [[_ ->]|[(k & e & _ & _ & ->)|[(k & yt & yp & x & _ & _ & ->)
       |(k & _ & [->|[row ->]])]]]; try reflexivity.
  unfold file_append. apply lookup_insert_ne, C.
Qed.




(** C5: a message without ['body'] is read by its ['prediction'] field;
    and for any decoder that reads the two payloads of the example as
    the objects they spell, from any state with no entry for id 1000.0,
    the ground truth on [y_true] followed by the prediction on [y_pred]
    appends exactly the row [1000.0,42.0,40.5,1.5] and leaves [data] as
    it was. *)
Theorem prediction_field_is_read os json_loads io st :
  json_loads truth_1000
    = Ok (PDict [("id", PFloat 1000); ("body", PFloat 42)]) ->
  json_loads prediction_1000
    = Ok (PDict [("id", PFloat 1000); ("prediction", PFloat 40.5)]) ->
  data st !! KInt 1000 = None ->
  (forall d, assoc "body" d = None ->
     message_value (PDict d) = Ok (default PNone (assoc "prediction" d)))
  /\ snd (process_message os json_loads "y_pred" prediction_1000 true
            (snd (process_message os json_loads "y_true" truth_1000 io st)))
     = State (data st)
         (file_append os (csv_path os) ("1000.0,42.0,40.5,1.5" +:+ nl) (files st))
         (journal st ++ [InfoRecorded (PFloat 1000) (PFloat 1.5)]).
Proof.
  intros Et Ep L. split.
  - intros d B. unfold message_value, get, bind. rewrite B. reflexivity.
  - apply (pair_recorded os json_loads truth_1000 prediction_1000 io
             (PFloat 1000) (PFloat 42) (PFloat 40.5) (KInt 1000)
             (PFloat 1.5) (PFloat 1.5));
      [eexists; repeat split; [exact Et|..]; reflexivity
      |eexists; repeat split; [exact Ep|..]; reflexivity
      |vm_compute; reflexivity|reflexivity|reflexivity
      |vm_compute; reflexivity|vm_compute; reflexivity|exact L].
Qed.

Lemma prediction_field_witness :
  (forall d, assoc "body" d = None ->
     message_value (PDict d) = Ok (default PNone (assoc "prediction" d)))
  /\ snd (process_message Nt Json.loads "y_pred" prediction_1000 true
            (snd (process_message Nt Json.loads "y_true" truth_1000 true initial)))
     = State (data initial)
         (file_append Nt (csv_path Nt) ("1000.0,42.0,40.5,1.5" +:+ nl)
            (files initial))
         (journal initial ++ [InfoRecorded (PFloat 1000) (PFloat 1.5)]).
Proof.
  apply (prediction_field_is_read Nt Json.loads true initial);
    [vm_compute; reflexivity|vm_compute; reflexivity|reflexivity].
Defined.

(** C9: an id equal to 0 is taken for a missing id, and a ['body'] equal
    to 0 with no ['prediction'] for a missing value: the message is
    logged and dropped, [data] and the files stay as they were; and a
    truthy ['body'] is the value whatever ['prediction'] holds. *)
Theorem zero_is_taken_for_missing os json_loads rk body io st d :
  json_loads body = Ok (PDict d) ->
  (forall i, assoc "id" d = Some i -> eq_zero i = true ->
     process_message os json_loads rk body io st
     = (Ok tt, logged (WarningNoId (PDict d)) st))
  /\ (forall b, truthy (default PNone (assoc "id" d)) = true ->
        assoc "body" d = Some b -> eq_zero b = true ->
        assoc "prediction" d = None ->
        process_message os json_loads rk body io st
        = (Ok tt, logged (WarningNoValue (PDict d)) st))
  /\ (forall b, assoc "body" d = Some b -> truthy b = true ->
        message_value (PDict d) = Ok b).
Proof.
  intros E. split; [|split].
  - intros i I Z. apply process_falsy_id; [exact E|].
    rewrite I. apply eq_zero_falsy, Z.
  - intros b T B Z P. apply process_no_value; [exact E|exact T|].
    unfold message_value, get, bind. rewrite B, P. simpl.
    rewrite (eq_zero_falsy _ Z). reflexivity.
  - intros b B T. unfold message_value, get, bind. rewrite B. simpl.
    rewrite T. reflexivity.
Qed.

Lemma zero_is_taken_for_missing_witness :
  process_message Nt Json.loads "y_true" (body zero_truth_1000) true initial
  = (Ok tt, logged (WarningNoValue
                      (PDict [("id", PFloat 1000); ("body", PFloat 0)]))
              initial).
Proof.
  apply (zero_is_taken_for_missing Nt Json.loads "y_true"
           (body zero_truth_1000) true initial
           [("id", PFloat 1000); ("body", PFloat 0)]
           ltac:(vm_compute; reflexivity)) with (b := PFloat 0);
    reflexivity.
Defined.

(** C1, failing input: the ground truth 0.0 is dropped by line 32, so
    the pair of id 1000.0 leaves no row; the prediction stays pending. *)
Lemma zero_ground_truth_is_never_recorded :
  let st := deliver Nt body_prediction_1000 (deliver Nt zero_truth_1000 initial) in
  files st = ∅
  /\ data st !! KInt 1000 = Some (Entry None (Some (PFloat 3.5)))
  /\ journal st = [WarningNoValue (PDict [("id", PFloat 1000); ("body", PFloat 0)])].
Proof. vm_compute. repeat split; reflexivity. Qed.

(** C6, failing input: the only half of id 1000.0 that arrives is the
    ground truth 0.0, and no entry is kept for it. *)
Lemma zero_half_leaves_no_entry :
  let st := deliver Nt zero_truth_1000 initial in
  data st !! KInt 1000 = None /\ data st = ∅ /\ files st = ∅.
Proof. vm_compute. repeat split; reflexivity. Qed.

(** X1: a ground truth and a prediction that pass the checks under one
    id, from a state with no entry for that id, whose row line 16 can
    render and encode, with a file system that grants the open, the
    write and the close: whichever comes first, the second call appends
    the one row [id,y_true,y_pred,|y_true - y_pred|] and the state is
    the same, [data] as before the pair. *)
Theorem accepted_pair_emits_one_record os json_loads body_t body_p io
    mid yt yp k diff err row st :
  accepted json_loads body_t mid yt -> accepted json_loads body_p mid yp ->
  key_of mid = Ok k -> sub yt yp = Ok diff -> abs diff = Ok err ->
  csv_row mid yt yp err = Some (Ok row) -> encode row = Ok row ->
  data st !! k = None ->
  let recorded :=
    State (data st) (file_append os (csv_path os) row (files st))
      (journal st ++ [InfoRecorded mid err]) in
  files (snd (process_message os json_loads "y_true" body_t io st))
    = files st
  /\ files (snd (process_message os json_loads "y_pred" body_p io st))
     = files st
  /\ snd (process_message os json_loads "y_pred" body_p Granted
            (snd (process_message os json_loads "y_true" body_t io st)))
     = recorded
  /\ snd (process_message os json_loads "y_true" body_t Granted
            (snd (process_message os json_loads "y_pred" body_p io st)))
     = recorded.
Proof.
  intros At Ap K S A R En L. cbv zeta.
  split; [|split].
  - rewrite (process_half os json_loads "y_true" body_t io st mid yt k
               (Entry (Some yt) None) At K);
      [reflexivity|rewrite arrive_lookup, L; reflexivity|auto].
  - rewrite (process_half os json_loads "y_pred" body_p io st mid yp k
               (Entry None (Some yp)) Ap K);
      [reflexivity|rewrite arrive_lookup, L; reflexivity|auto].
  - apply (pair_recorded os json_loads body_t body_p io mid yt yp k diff err
             row st At Ap K S A R En L).
Qed.

(** X2: when the only accepted message of an id on the two queues is
    one half, whatever else is delivered after it, [data] ends with that
    half alone under the id, and no row of the id has been recorded. *)
Theorem lone_half_stays_pending os json_loads first rest mid v k st :
  routing_key first = "y_true" \/ routing_key first = "y_pred" ->
  accepted json_loads (body first) mid v -> key_of mid = Ok k ->
  data st !! k = None ->
  Forall (fun d => forall v', carries json_loads d k v' ->
            routing_key d <> "y_true" /\ routing_key d <> "y_pred") rest ->
  exists js,
    data (snd (start_consuming os json_loads (first :: rest) st)) !! k
    = Some (if String.eqb (routing_key first) "y_true"
            then Entry (Some v) None else Entry None (Some v))
    /\ journal (snd (start_consuming os json_loads (first :: rest) st))
       = journal st ++ js
    /\ Forall (no_record_of k) js.
Proof.
  intros Rk Acc K L F. rewrite start_consuming_cons.
  set (e := if String.eqb (routing_key first) "y_true"
            then Entry (Some v) None else Entry None (Some v)).
  assert (Le : arrive (routing_key first) k v (data st) !! k = Some e).
  { rewrite arrive_lookup, L. subst e. destruct Rk as [->| ->]; reflexivity. }
  assert (Inc : y_true e = None \/ y_pred e = None)
    by (subst e; destruct (String.eqb _ _); simpl; auto).
  rewrite (process_half os json_loads (routing_key first) (body first)
             (io_ok first) st mid v k e Acc K Le Inc).
  apply (other_deliveries_keep_entry os json_loads k e rest
           (State (arrive (routing_key first) k v (data st)) (files st)
              (journal st)) Le Inc F).
Qed.

Lemma accepted_pair_witness :
  let recorded :=
    State (data initial)
      (file_append Nt (csv_path Nt) ("1000.0,42.0,40.5,1.5" +:+ nl)
         (files initial))
      (journal initial ++ [InfoRecorded (PFloat 1000) (PFloat 1.5)]) in
  files (snd (process_message Nt Json.loads "y_true" truth_1000 true initial))
    = files initial
  /\ files (snd (process_message Nt Json.loads "y_pred" prediction_1000
                   true initial))
     = files initial
  /\ snd (process_message Nt Json.loads "y_pred" prediction_1000 Granted
            (snd (process_message Nt Json.loads "y_true" truth_1000
                    true initial)))
     = recorded
  /\ snd (process_message Nt Json.loads "y_true" truth_1000 Granted
            (snd (process_message Nt Json.loads "y_pred" prediction_1000
                    true initial)))
     = recorded.
Proof.
  apply (accepted_pair_emits_one_record Nt Json.loads truth_1000
           prediction_1000 true (PFloat 1000) (PFloat 42) (PFloat 40.5)
           (KInt 1000) (PFloat 1.5) (PFloat 1.5)
           ("1000.0,42.0,40.5,1.5" +:+ nl) initial).
  - exists (PDict [("id", PFloat 1000); ("body", PFloat 42)]).
    repeat split; vm_compute; reflexivity.
  - exists (PDict [("id", PFloat 1000); ("prediction", PFloat 40.5)]).
    repeat split; vm_compute; reflexivity.
  - vm_compute; reflexivity.
  - reflexivity.
  - reflexivity.
  - vm_compute; reflexivity.
  - vm_compute; reflexivity.
  - reflexivity.
Defined.

Lemma lone_half_witness :
  exists js,
    data (snd (start_consuming Nt Json.loads
                 [Delivery "y_true" truth_1000 true; listed_prediction_7]
                 initial)) !! KInt 1000
    = Some (Entry (Some (PFloat 42)) None)
    /\ journal (snd (start_consuming Nt Json.loads
                       [Delivery "y_true" truth_1000 true; listed_prediction_7]
                       initial))
       = journal initial ++ js
    /\ Forall (no_record_of (KInt 1000)) js.
Proof.
  apply (lone_half_stays_pending Nt Json.loads
           (Delivery "y_true" truth_1000 true) [listed_prediction_7]
           (PFloat 1000) (PFloat 42) (KInt 1000) initial).
  - left; reflexivity.
  - exists (PDict [("id", PFloat 1000); ("body", PFloat 42)]).
    repeat split; vm_compute; reflexivity.
  - vm_compute; reflexivity.
  - reflexivity.
  - constructor; [|constructor].
    intros v' (mid & (m & E & I & _) & K).
    vm_compute in E. inversion E; subst m.
    vm_compute in I. inversion I; subst mid.
    vm_compute in K. discriminate.
Defined.

(** C8: over the equally likely outcomes of the draw, the results of a
    tick are, row by row of the dataset and each row once, the channel
    with two more messages: the target on [y_true] and then the feature
    vector on [features], both persistent (delivery mode 2) and under
    the id of the tick; and over any number of ticks the channel grows
    by exactly two messages a tick. *)
Theorem tick_publishes_one_pair json_dumps X y now channel :
  length X = length y ->
  List.map (fun r => Features.tick json_dumps X y r now channel)
    (Features.randint_outcomes 0 (Features.shape0 X))
  = List.map
      (fun sample =>
         Ok (channel ++
             [Features.Publish "" "y_true"
                (json_dumps (PDict [("id", PFloat now);
                                    ("body", PFloat (fst sample))])) 2;
              Features.Publish "" "features"
                (json_dumps (PDict [("id", PFloat now);
                                    ("body", PList (List.map PFloat (snd sample)))]))
                2]))
      (zip y X)
  /\ forall draws,
       Forall (fun d => fst d ∈ Features.randint_outcomes 0 (Features.shape0 X)) draws ->
       exists out, Features.ticks json_dumps X y draws channel = Ok (channel ++ out)
                   /\ length out = (2 * length draws)%nat.
Proof.
  intros Len. split; [|intros draws F; apply ticks_in_range; assumption].
  apply list_eq. intros i.
  rewrite !list_lookup_fmap.
  destruct (decide (i < length X)%nat) as [Hi|Hi].
  - rewrite randint_outcomes_lookup by (unfold Features.shape0; lia).
    destruct (lookup_lt_is_Some_2 X i Hi) as [row Hrow].
    destruct (lookup_lt_is_Some_2 y i) as [t Ht]; [lia|].
    rewrite (proj2 (lookup_zip_with_Some pair y X i (t, row)))
      by (exists t, row; auto).
    simpl. f_equal. unfold Features.tick, bind. rewrite Z.add_0_l.
    rewrite (getitem_in_range y (Z.of_nat i) t),
      (getitem_in_range X (Z.of_nat i) row)
      by (rewrite ?Nat2Z.id; assumption || lia).
    reflexivity.
  - rewrite (lookup_ge_None_2 (Features.randint_outcomes _ _))
      by (rewrite randint_outcomes_length; unfold Features.shape0; lia).
    rewrite (lookup_ge_None_2 (zip y X))
      by (rewrite length_zip_with; lia).
    reflexivity.
Qed.


Lemma tick_publishes_witness :
  List.map (fun r => Features.tick Json.dumps [[0.5; 1.5]; [2.5; 3.5]]%float
                       [151; 75]%float r 1000%float [])
    (Features.randint_outcomes 0 (Features.shape0 [[0.5; 1.5]; [2.5; 3.5]]%float))
  = List.map
      (fun sample =>
         Ok ([] ++
             [Features.Publish "" "y_true"
                (Json.dumps (PDict [("id", PFloat 1000);
                                    ("body", PFloat (fst sample))])) 2;
              Features.Publish "" "features"
                (Json.dumps (PDict [("id", PFloat 1000);
                                    ("body", PList (List.map PFloat (snd sample)))]))
                2]))
      (zip [151; 75]%float [[0.5; 1.5]; [2.5; 3.5]]%float)
  /\ forall draws,
       Forall (fun d => fst d ∈ Features.randint_outcomes 0
                          (Features.shape0 [[0.5; 1.5]; [2.5; 3.5]]%float))
         draws ->
       exists out,
         Features.ticks Json.dumps [[0.5; 1.5]; [2.5; 3.5]]%float
           [151; 75]%float draws [] = Ok ([] ++ out)
         /\ length out = (2 * length draws)%nat.
Proof.
  apply (tick_publishes_one_pair Json.dumps [[0.5; 1.5]; [2.5; 3.5]]%float
           [151; 75]%float 1000%float []).
  reflexivity.
Defined.

(** X3: a pass of the visualizer returns normally whatever pandas and
    the plotting calls raise; when the read of the log raises (as it
    does on a file with no row) the pass prints the failure and leaves
    the files as they were; and the loop makes every pass. *)
Theorem visualizer_pass_never_raises os frame series
    (pd_read_csv : option string -> result frame)
    (iloc_column : frame -> Z -> result series)
    (draw : series -> result string) :
  (forall io st,
     fst (Plot.tick os frame series pd_read_csv iloc_column draw io st) = Ok tt)
  /\ (forall io st e,
        pd_read_csv (Plot.read_input os (Plot.files frame st)) = Raise e ->
        Plot.tick os frame series pd_read_csv iloc_column draw io st
        = (Ok tt, Plot.State frame (Plot.files frame st)
                    (Plot.stdout frame st ++ [Plot.Failure frame e])))
  /\ (forall ios st,
        fst (Plot.loop os frame series pd_read_csv iloc_column draw ios st)
        = Ok tt).
Proof.
  split; [|split].
  - apply PlotFacts.tick_returns.
  - apply PlotFacts.tick_unreadable.
  - intros ios st. apply PlotFacts.loop_returns.
Qed.

End Claims.

(** ** Further properties of the scripts *)

Module Properties.
Import Py Metric Spec MetricFacts RunFacts.

(** X4: the call that completes a pair deletes the entry whatever
    becomes of the row, so a row that is not written is lost. When the
    open is refused nothing changes but the journal; when line 16 cannot
    render the row (an [int] beyond the digit limit) or encode it (a
    surrogate in the id) the log is left as the open made it; when the
    file system refuses the row the log keeps what it took of it, and
    the journal has the line of line 17 before the error if the refusal
    came at the close. In either order of the two halves. *)
Theorem failed_write_loses_the_pair os json_loads body_t body_p io io2
    mid_t mid_p yt yp k diff err st :
  accepted json_loads body_t mid_t yt -> accepted json_loads body_p mid_p yp ->
  key_of mid_t = Ok k -> key_of mid_p = Ok k ->
  sub yt yp = Ok diff -> abs diff = Ok err -> data st !! k = None ->
  forall mid after,
    mid = mid_p
    /\ after = snd (process_message os json_loads "y_pred" body_p io2
                      (snd (process_message os json_loads "y_true" body_t io st)))
    \/ mid = mid_t
       /\ after = snd (process_message os json_loads "y_true" body_t io2
                         (snd (process_message os json_loads "y_pred" body_p
                                 io st))) ->
    data after = data st
    /\ (io2 = OpenRefused ->
        files after = files st
        /\ journal after = journal st ++ [ErrorWrite OSError])
    /\ (io2 <> OpenRefused -> forall e,
        csv_row mid yt yp err = Some (Raise e) ->
        files after = touch os (csv_path os) (files st)
        /\ journal after = journal st ++ [ErrorWrite e])
    /\ (io2 <> OpenRefused -> forall row e,
        csv_row mid yt yp err = Some (Ok row) -> encode row = Raise e ->
        files after = touch os (csv_path os) (files st)
        /\ journal after = journal st ++ [ErrorWrite e])
    /\ (forall row kept,
        csv_row mid yt yp err = Some (Ok row) -> encode row = Ok row ->
        io2 = WriteRefused kept ->
        files after
        = file_append os (csv_path os) (substring 0 kept row) (files st)
        /\ journal after = journal st ++ [ErrorWrite OSError])
    /\ (forall row kept,
        csv_row mid yt yp err = Some (Ok row) -> encode row = Ok row ->
        io2 = CloseRefused kept ->
        files after
        = file_append os (csv_path os) (substring 0 kept row) (files st)
        /\ journal after
           = journal st ++ [InfoRecorded mid err; ErrorWrite OSError]).
Proof.
  intros At Ap Kt Kp S A L mid after H.
  destruct (pair_settled os json_loads body_t body_p io io2 mid_t mid_p yt yp
              k diff err st At Ap Kt Kp S A L) as [H1 H2].
  assert (E : after
              = State (data st)
                  (files (snd (log_error_to_csv os io2 mid yt yp err st)))
                  (journal (snd (log_error_to_csv os io2 mid yt yp err st))))
    by (destruct H as [[-> ->]|[-> ->]]; assumption).
  rewrite E, log_error_to_csv_eq. cbv zeta. cbn [snd data].
  split; [reflexivity|].
  split; [intros ->; split; reflexivity|].
  split; [intros N e R; destruct io2; try (destruct (N eq_refl));
          rewrite R; split; reflexivity|].
  split; [intros N row e R En; destruct io2; try (destruct (N eq_refl));
          rewrite R, En; split; reflexivity|].
  split; intros row kept R En ->; rewrite R, En; split; reflexivity.
Qed.

Lemma failed_write_witness :
  let after :=
    snd (process_message Nt Json.loads "y_pred" prediction_1000
           (CloseRefused 0)
           (snd (process_message Nt Json.loads "y_true" truth_1000 true
                   initial))) in
  data after = data initial
  /\ files after = file_append Nt (csv_path Nt) EmptyString (files initial)
  /\ journal after
     = journal initial
       ++ [InfoRecorded (PFloat 1000) (PFloat 1.5); ErrorWrite OSError].
Proof.
  assert (At : accepted Json.loads truth_1000 (PFloat 1000) (PFloat 42)).
  { exists (PDict [("id", PFloat 1000); ("body", PFloat 42)]).
    repeat split; vm_compute; reflexivity. }
  assert (Ap : accepted Json.loads prediction_1000 (PFloat 1000) (PFloat 40.5)).
  { exists (PDict [("id", PFloat 1000); ("prediction", PFloat 40.5)]).
    repeat split; vm_compute; reflexivity. }
  assert (K : key_of (PFloat 1000) = Ok (KInt 1000))
    by (vm_compute; reflexivity).
  destruct (failed_write_loses_the_pair Nt Json.loads truth_1000
              prediction_1000 true (CloseRefused 0) (PFloat 1000) (PFloat 1000)
              (PFloat 42) (PFloat 40.5) (KInt 1000) (PFloat 1.5) (PFloat 1.5)
              initial At Ap K K eq_refl eq_refl eq_refl (PFloat 1000) _
              (or_introl (conj eq_refl eq_refl)))
    as (D & _ & _ & _ & _ & C).
  assert (R : csv_row (PFloat 1000) (PFloat 42) (PFloat 40.5) (PFloat 1.5)
              = Some (Ok ("1000.0,42.0,40.5,1.5" +:+ nl)))
    by (vm_compute; reflexivity).
  assert (En : encode ("1000.0,42.0,40.5,1.5" +:+ nl)
               = Ok ("1000.0,42.0,40.5,1.5" +:+ nl))
    by (vm_compute; reflexivity).
  destruct (C ("1000.0,42.0,40.5,1.5" +:+ nl) 0%nat R En eq_refl) as [F J].
  cbv zeta. split; [exact D|]. split; [exact F|exact J].
Defined.

(** Line 16 on a pair it cannot write: an id that holds a lone
    surrogate, and two values of 4300 digits whose difference has 4301.
    The entry is deleted, the log is created and left empty, and the
    journal has the error of the write. *)
Example surrogate_id_is_not_written :
  let after :=
    deliver Nt
      (Delivery "y_pred"
         (Json.payload "{'id': '\ud800', 'body': 2.0}") true)
      (deliver Nt
         (Delivery "y_true"
            (Json.payload "{'id': '\ud800', 'body': 5.0}") true)
         initial) in
  data after = ∅
  /\ files after !! components Nt (csv_path Nt) = Some EmptyString
  /\ journal after = [ErrorWrite UnicodeEncodeError].
Proof. vm_compute. repeat split; reflexivity. Qed.

Example long_difference_is_not_written :
  let nines := string_map (fun _ => "9"%char) (zeros 4300) in
  let after :=
    deliver Nt
      (Delivery "y_pred"
         (Json.payload ("{'id': 7, 'body': -" +:+ nines +:+ "}")) true)
      (deliver Nt
         (Delivery "y_true"
            (Json.payload ("{'id': 7, 'body': " +:+ nines +:+ "}")) true)
         initial) in
  data after = ∅
  /\ files after !! components Nt (csv_path Nt) = Some EmptyString
  /\ journal after = [ErrorWrite ValueError].
Proof. vm_compute. repeat split; reflexivity. Qed.

(** X5: the two halves are paired by the equality a dict uses for its
    keys, not by the spelling of the id: ids of one key ([1], [1.0] and
    [true], say) settle as one pair, and the row, when line 16 can
    render and encode it and the file system grants the write, carries
    the id of the message that came second. *)
Theorem ids_pair_up_by_dict_key os json_loads body_t body_p io
    mid_t mid_p yt yp k diff err row_t row_p st :
  accepted json_loads body_t mid_t yt -> accepted json_loads body_p mid_p yp ->
  key_of mid_t = Ok k -> key_of mid_p = Ok k ->
  sub yt yp = Ok diff -> abs diff = Ok err ->
  csv_row mid_t yt yp err = Some (Ok row_t) -> encode row_t = Ok row_t ->
  csv_row mid_p yt yp err = Some (Ok row_p) -> encode row_p = Ok row_p ->
  data st !! k = None ->
  snd (process_message os json_loads "y_pred" body_p Granted
         (snd (process_message os json_loads "y_true" body_t io st)))
  = State (data st) (file_append os (csv_path os) row_p (files st))
      (journal st ++ [InfoRecorded mid_p err])
  /\ snd (process_message os json_loads "y_true" body_t Granted
            (snd (process_message os json_loads "y_pred" body_p io st)))
     = State (data st) (file_append os (csv_path os) row_t (files st))
         (journal st ++ [InfoRecorded mid_t err]).
Proof.
  intros At Ap Kt Kp S A Rt Et Rp Ep L.
  destruct (pair_settled os json_loads body_t body_p io Granted mid_t mid_p
              yt yp k diff err st At Ap Kt Kp S A L) as [H1 H2].
  rewrite H1, H2.
  rewrite (log_error_to_csv_granted os mid_p yt yp err row_p st Rp Ep),
    (log_error_to_csv_granted os mid_t yt yp err row_t st Rt Et).
  split; reflexivity.
Qed.

Lemma ids_pair_up_witness :
  snd (process_message Nt Json.loads "y_pred"
         (Json.payload "{'id': 1.0, 'prediction': 40.5}") Granted
         (snd (process_message Nt Json.loads "y_true"
                 (Json.payload "{'id': 1, 'body': 42.0}") true initial)))
  = State (data initial)
      (file_append Nt (csv_path Nt) ("1.0,42.0,40.5,1.5" +:+ nl)
         (files initial))
      (journal initial ++ [InfoRecorded (PFloat 1) (PFloat 1.5)])
  /\ snd (process_message Nt Json.loads "y_true"
            (Json.payload "{'id': 1, 'body': 42.0}") Granted
            (snd (process_message Nt Json.loads "y_pred"
                    (Json.payload "{'id': 1.0, 'prediction': 40.5}") true
                    initial)))
     = State (data initial)
         (file_append Nt (csv_path Nt) ("1,42.0,40.5,1.5" +:+ nl)
            (files initial))
         (journal initial ++ [InfoRecorded (PInt 1) (PFloat 1.5)]).
Proof.
  apply (ids_pair_up_by_dict_key Nt Json.loads
           (Json.payload "{'id': 1, 'body': 42.0}")
           (Json.payload "{'id': 1.0, 'prediction': 40.5}")
           true (PInt 1) (PFloat 1) (PFloat 42) (PFloat 40.5)
           (KInt 1) (PFloat 1.5) (PFloat 1.5)
           ("1,42.0,40.5,1.5" +:+ nl) ("1.0,42.0,40.5,1.5" +:+ nl) initial).
  - exists (PDict [("id", PInt 1); ("body", PFloat 42)]).
    repeat split; vm_compute; reflexivity.
  - exists (PDict [("id", PFloat 1); ("prediction", PFloat 40.5)]).
    repeat split; vm_compute; reflexivity.
  - reflexivity.
  - vm_compute; reflexivity.
  - reflexivity.
  - reflexivity.
  - vm_compute; reflexivity.
  - vm_compute; reflexivity.
  - vm_compute; reflexivity.
  - vm_compute; reflexivity.
  - reflexivity.
Defined.

(** X6: a half that comes again on the same queue before its partner
    replaces the pending one: the second call leaves the state that it
    would have left had the first never come, with the later value
    pending. *)
Theorem redelivered_half_overwrites os json_loads rk body1 body2 io1 io2
    mid1 mid2 v1 v2 k st :
  rk = "y_true" \/ rk = "y_pred" ->
  accepted json_loads body1 mid1 v1 -> accepted json_loads body2 mid2 v2 ->
  key_of mid1 = Ok k -> key_of mid2 = Ok k -> data st !! k = None ->
  process_message os json_loads rk body2 io2
    (snd (process_message os json_loads rk body1 io1 st))
  = process_message os json_loads rk body2 io2 st
  /\ data (snd (process_message os json_loads rk body2 io2 st)) !! k
     = Some (if String.eqb rk "y_true"
             then Entry (Some v2) None else Entry None (Some v2)).
Proof.
  intros Rk A1 A2 K1 K2 L.
  set (e := fun v => if String.eqb rk "y_true"
                     then Entry (Some v) None else Entry None (Some v)).
  assert (Le : forall v, arrive rk k v (data st) !! k = Some (e v)).
  { intros v. rewrite arrive_lookup, L. subst e.
    destruct Rk as [->| ->]; reflexivity. }
  assert (Inc : forall v, y_true (e v) = None \/ y_pred (e v) = None)
    by (intros v; subst e; simpl; destruct (String.eqb _ _); simpl; auto).
  assert (Ar : arrive rk k v2 (arrive rk k v1 (data st))
               = arrive rk k v2 (data st)).
  { unfold arrive. destruct Rk as [->| ->]; simpl;
      rewrite lookup_insert_eq, L; simpl; apply insert_insert_eq. }
  rewrite (process_half os json_loads rk body1 io1 st mid1 v1 k (e v1)
             A1 K1 (Le v1) (Inc v1)). simpl.
  rewrite (process_half os json_loads rk body2 io2 st mid2 v2 k (e v2)
             A2 K2 (Le v2) (Inc v2)).
  rewrite (process_half os json_loads rk body2 io2 _ mid2 v2 k (e v2) A2 K2);
    simpl; [|rewrite Ar; apply Le|apply Inc].
  rewrite Ar. split; [reflexivity|apply Le].
Qed.

Lemma redelivered_half_witness :
  process_message Nt Json.loads "y_true"
    (Json.payload "{'id': 7, 'body': 2.5}") true
    (snd (process_message Nt Json.loads "y_true"
            (Json.payload "{'id': 7, 'body': 151.0}") true initial))
  = process_message Nt Json.loads "y_true"
      (Json.payload "{'id': 7, 'body': 2.5}") true initial
  /\ data (snd (process_message Nt Json.loads "y_true"
                  (Json.payload "{'id': 7, 'body': 2.5}") true initial))
       !! KInt 7
     = Some (if String.eqb "y_true" "y_true"
             then Entry (Some (PFloat 2.5)) None
             else Entry None (Some (PFloat 2.5))).
Proof.
  apply (redelivered_half_overwrites Nt Json.loads "y_true"
           (Json.payload "{'id': 7, 'body': 151.0}")
           (Json.payload "{'id': 7, 'body': 2.5}") true true
           (PInt 7) (PInt 7) (PFloat 151) (PFloat 2.5) (KInt 7) initial).
  - left; reflexivity.
  - exists (PDict [("id", PInt 7); ("body", PFloat 151)]).
    repeat split; vm_compute; reflexivity.
  - exists (PDict [("id", PInt 7); ("body", PFloat 2.5)]).
    repeat split; vm_compute; reflexivity.
  - reflexivity.
  - reflexivity.
  - reflexivity.
Defined.

(** X7: over any run of the consuming loop, from any state, the log
    file only grows: what it held stays at its head; and no other file
    changes (the file of [logging] apart, which the journal stands
    for). When the file system grants every open, write and close of
    the run, the log grows by exactly the rows the journal records: each
    [InfoRecorded] line has its row, in order, and the row renders an
    id, two values and the absolute value of their difference. *)
Theorem log_grows_by_the_recorded_rows os json_loads ds st :
  exists js added,
    journal (snd (start_consuming os json_loads ds st)) = journal st ++ js
    /\ default EmptyString
         (files (snd (start_consuming os json_loads ds st))
            !! components os (csv_path os))
       = default EmptyString (files st !! components os (csv_path os))
         +:+ added
    /\ (forall p, p <> components os (csv_path os) ->
                  p <> components os (log_path os) ->
          files (snd (start_consuming os json_loads ds st)) !! p
          = files st !! p)
    /\ (Forall (fun d => io_ok d = Granted) ds ->
        exists rows, added = text rows /\ Forall2 row_of (records js) rows).
Proof.
  destruct (start_consuming_run os json_loads ds st)
    as (js & added & J & O & C & _ & G).
  exists js, added. split; [exact J|]. split; [exact C|].
  split; [intros p H _; apply O, H|exact G].
Qed.

(** X8: every error the handler records is the result of [abs]: over
    any run, no [InfoRecorded] line carries an error below zero. *)
Theorem recorded_errors_are_not_negative os json_loads ds st :
  exists js,
    journal (snd (start_consuming os json_loads ds st)) = journal st ++ js
    /\ forall mid err, InfoRecorded mid err ∈ js -> lt_zero err = false.
Proof.
  destruct (start_consuming_run os json_loads ds st)
    as (js & added & J & _ & _ & N & _).
  exists js. split; [exact J|]. intros mid err H.
  rewrite Forall_forall in N. apply (N (mid, err)).
  unfold records. apply list_elem_of_omap. exists (InfoRecorded mid err).
  auto.
Qed.

(** X9: a message of a queue other than [y_true] and [y_pred] (the
    producer's [features], say) is never stored and never settles
    anything: in every state the script reaches the call leaves [data]
    and the files alone and adds at most one line, not a record, to the
    journal; for an accepted message whose id has no entry that line is
    the KeyError of line 46. *)
Theorem other_queue_is_ignored os json_loads rk body io st :
  reachable os json_loads st -> rk <> "y_true" -> rk <> "y_pred" ->
  data (snd (process_message os json_loads rk body io st)) = data st
  /\ files (snd (process_message os json_loads rk body io st)) = files st
  /\ (exists js,
        journal (snd (process_message os json_loads rk body io st))
        = journal st ++ js
        /\ (length js <= 1)%nat /\ records js = [])
  /\ (forall mid v k,
        accepted json_loads body mid v -> key_of mid = Ok k ->
        data st !! k = None ->
        journal (snd (process_message os json_loads rk body io st))
        = journal st ++ [ErrorHandling KeyError]).
Proof.
  intros R H1 H2.
  pose proof (reachable_only_unsettled os json_loads st R) as U.
  split; [|split; [|split]].
  - destruct (process_other_queue os json_loads rk body io st U H1 H2)
      as [->|(l & _ & ->)]; reflexivity.
  - destruct (process_other_queue os json_loads rk body io st U H1 H2)
      as [->|(l & _ & ->)]; reflexivity.
  - destruct (process_other_queue os json_loads rk body io st U H1 H2)
      as [->|(l & Hl & ->)].
    + exists []. rewrite app_nil_r. auto.
    + exists [l]. rewrite (records_not l Hl). simpl. auto.
  - intros mid v k Acc K L.
    rewrite (process_absent os json_loads rk body io st mid v k Acc K);
      [reflexivity|].
    rewrite (arrive_other_queue rk k v _ H1 H2). exact L.
Qed.

Lemma other_queue_witness :
  data (snd (process_message Nt Json.loads "features"
               (Json.payload "{'id': 1000.0, 'body': [0.5, 1.5]}") true
               initial)) = data initial
  /\ files (snd (process_message Nt Json.loads "features"
                  (Json.payload "{'id': 1000.0, 'body': [0.5, 1.5]}") true
                  initial)) = files initial
  /\ (exists js,
        journal (snd (process_message Nt Json.loads "features"
                        (Json.payload "{'id': 1000.0, 'body': [0.5, 1.5]}")
                        true initial))
        = journal initial ++ js
        /\ (length js <= 1)%nat /\ records js = [])
  /\ (forall mid v k,
        accepted Json.loads
          (Json.payload "{'id': 1000.0, 'body': [0.5, 1.5]}") mid v ->
        key_of mid = Ok k -> data initial !! k = None ->
        journal (snd (process_message Nt Json.loads "features"
                        (Json.payload "{'id': 1000.0, 'body': [0.5, 1.5]}")
                        true initial))
        = journal initial ++ [ErrorHandling KeyError]).
Proof.
  apply (other_queue_is_ignored Nt Json.loads "features"
           (Json.payload "{'id': 1000.0, 'body': [0.5, 1.5]}") true initial).
  - apply reach_start.
  - discriminate.
  - discriminate.
Defined.

(** X10: a payload that decodes to something other than an object (a
    list, a number, a string, [null]) is stopped by [message.get] on
    line 25, and an accepted message whose id is a list or an object by
    the hashing of the id: either way the state is as before, with one
    line of line 56 in the journal, AttributeError or TypeError. *)
Theorem unusable_message_is_logged os json_loads rk body io st m :
  json_loads body = Ok m ->
  ((forall d, m <> PDict d) ->
   process_message os json_loads rk body io st
   = (Ok tt, logged (ErrorHandling AttributeError) st))
  /\ (forall mid v,
        get m "id" = Ok mid -> truthy mid = true ->
        message_value m = Ok v -> is_None v = false ->
        (exists l, mid = PList l) \/ (exists d, mid = PDict d) ->
        process_message os json_loads rk body io st
        = (Ok tt, logged (ErrorHandling TypeError) st)).
Proof.
  intros E. split.
  - intros H. unfold process_message.
    apply (guarded_raise _ st st AttributeError).
    unfold process_message_body, mbind, lift. rewrite E.
    destruct m; try reflexivity. destruct (H d eq_refl).
  - intros mid v I T V N H.
    apply (process_unhashable os json_loads rk body io st mid v TypeError).
    + exists m. auto.
    + destruct H as [[l ->]|[d ->]]; reflexivity.
Qed.

Lemma unusable_message_witness :
  process_message Nt Json.loads "y_true" (Json.payload "[1, 2]") true initial
  = (Ok tt, logged (ErrorHandling AttributeError) initial).
Proof.
  apply (proj1 (unusable_message_is_logged Nt Json.loads "y_true"
                  (Json.payload "[1, 2]") true initial
                  (PList [PInt 1; PInt 2]) ltac:(vm_compute; reflexivity))).
  discriminate.
Defined.

(** X11: a call changes [data] under the key of the id its message
    carries, and nowhere else: the entry of any other key is after the
    call what it was before. *)
Theorem call_touches_only_its_id os json_loads rk body io st k :
  (forall mid v, accepted json_loads body mid v -> key_of mid <> Ok k) ->
  data (snd (process_message os json_loads rk body io st)) !! k
  = data st !! k.
Proof.
  rename k into k'. intros H.
  destruct (process_checked os json_loads rk body io st)
    as [(l & _ & ->)|(mid & v & Acc)]; [reflexivity|].
  destruct (key_of mid) as [k|x] eqn:K.
  2:{ rewrite (process_unhashable os json_loads rk body io st mid v x Acc K).
      reflexivity. }
  assert (Hne : k <> k') by (intros ->; exact (H mid v Acc K)).
  rewrite (process_keyed os json_loads rk body io st mid v k Acc K). cbv zeta.
  destruct (arrive rk k v (data st) !! k) as [[[yt|] [yp|]]|]; simpl;
    try (apply arrive_lookup_ne, Hne).
  destruct (do diff <- sub yt yp; abs diff) as [err|x]; simpl;
    [|apply arrive_lookup_ne, Hne].
  apply lookup_delete_ne, Hne.
Qed.

Lemma call_touches_witness :
  data (snd (process_message Nt Json.loads "y_pred" prediction_1000 true
               (deliver Nt target_7 initial))) !! KInt 7
  = data (deliver Nt target_7 initial) !! KInt 7.
Proof.
  apply (call_touches_only_its_id Nt Json.loads "y_pred" prediction_1000 true
           (deliver Nt target_7 initial) (KInt 7)).
  intros mid v (m & E & I & _) K.
  vm_compute in E. inversion E; subst m.
  vm_compute in I. inversion I; subst mid.
  vm_compute in K. discriminate.
Defined.

(** X12: in every state the script reaches, an entry of [data] is one
    pending half, a ground truth or a prediction, or a pair whose
    difference raises; no entry is empty. *)
Theorem pending_entries_are_halves os json_loads st :
  reachable os json_loads st ->
  forall k e, data st !! k = Some e ->
    (exists v, e = Entry (Some v) None)
    \/ (exists v, e = Entry None (Some v))
    \/ (exists yt yp x, e = Entry (Some yt) (Some yp) /\ sub yt yp = Raise x).
Proof.
  intros R k [[yt|] [yp|]] L; eauto.
  - destruct (reachable_only_unsettled os json_loads st R k yt yp L) as [x Hx].
    right; right. eauto.
  - destruct (reachable_holds_a_half os json_loads st R k _ L) as [H|H];
      destruct (H eq_refl).
Qed.

Lemma pending_entries_witness :
  (exists v, Entry (Some (PFloat 151)) (Some (PList [PFloat 150.5]))
             = Entry (Some v) None)
  \/ (exists v, Entry (Some (PFloat 151)) (Some (PList [PFloat 150.5]))
                = Entry None (Some v))
  \/ (exists yt yp x,
        Entry (Some (PFloat 151)) (Some (PList [PFloat 150.5]))
        = Entry (Some yt) (Some yp) /\ sub yt yp = Raise x).
Proof.
  apply (pending_entries_are_halves Nt Json.loads
           (deliver Nt listed_prediction_7 (deliver Nt target_7 initial))
           ltac:(apply reach_step, reach_step, reach_start) (KInt 7)).
  vm_compute. reflexivity.
Defined.

(** X13: the producer and the correlator together: the ground-truth
    message of a tick, handed to the handler on its queue, is accepted
    and becomes the pending half of the tick's id, provided that the
    decoder reads back what the encoder wrote, that the timestamp and
    the target are not zero, and that the id has no entry yet. Nothing
    is recorded: the feature vector goes to another queue. *)
Theorem published_target_becomes_pending os json_loads json_dumps
    now target row io st :
  json_loads (list_byte_of_string
                (json_dumps (Features.message_y_true now target)))
  = Ok (Features.message_y_true now target) ->
  truthy (PFloat now) = true -> truthy (PFloat target) = true ->
  data st !! float_key now = None ->
  exists p_true p_features,
    Features.published json_dumps now target row = [p_true; p_features]
    /\ Features.routing_key p_true = "y_true"
    /\ Features.routing_key p_features = "features"
    /\ process_message os json_loads (Features.routing_key p_true)
         (list_byte_of_string (Features.body p_true)) io st
       = (Ok tt,
          State (<[float_key now := Entry (Some (PFloat target)) None]> (data st))
            (files st) (journal st)).
Proof.
  intros E Tn Tt L. eexists _, _. split; [reflexivity|].
  split; [reflexivity|]. split; [reflexivity|]. simpl.
  rewrite (process_half os json_loads "y_true" _ io st (PFloat now)
             (PFloat target) (float_key now) (Entry (Some (PFloat target)) None)).
  - unfold arrive. simpl. rewrite L. reflexivity.
  - exists (Features.message_y_true now target).
    split; [exact E|]. split; [reflexivity|]. split; [exact Tn|].
    split; [|reflexivity].
    unfold message_value, Features.message_y_true, get, bind. simpl.
    simpl in Tt. rewrite Tt. reflexivity.
  - reflexivity.
  - rewrite arrive_lookup, L. reflexivity.
  - auto.
Qed.

Lemma published_target_witness :
  exists p_true p_features,
    Features.published Json.dumps 1700000000.25 151 [0.5; 1.5]%float
    = [p_true; p_features]
    /\ Features.routing_key p_true = "y_true"
    /\ Features.routing_key p_features = "features"
    /\ process_message Nt Json.loads (Features.routing_key p_true)
         (list_byte_of_string (Features.body p_true)) true initial
       = (Ok tt,
          State (<[float_key 1700000000.25 := Entry (Some (PFloat 151)) None]>
                   (data initial))
            (files initial) (journal initial)).
Proof.
  apply (published_target_becomes_pending Nt Json.loads Json.dumps
           1700000000.25%float 151%float [0.5; 1.5]%float true initial).
  - vm_compute; reflexivity.
  - reflexivity.
  - reflexivity.
  - reflexivity.
Defined.

(** X14: what the producer's loop publishes: for draws within the
    dataset the channel grows, tick by tick and in the order of the
    ticks, by the ground-truth message and then the features message of
    the row drawn, under the timestamp of the tick. *)
Theorem ticks_publish_the_drawn_rows json_dumps X y draws channel :
  length X = length y ->
  Forall (fun d => fst d ∈ Features.randint_outcomes 0 (Features.shape0 X))
    draws ->
  exists samples,
    Forall2 (fun d s => y !! Z.to_nat (fst d) = Some (fst s)
                        /\ X !! Z.to_nat (fst d) = Some (snd s)) draws samples
    /\ Features.ticks json_dumps X y draws channel
       = Ok (channel ++
             flat_map (fun ds => Features.published json_dumps (snd (fst ds))
                                   (fst (snd ds)) (snd (snd ds)))
               (zip draws samples)).
Proof.
  intros Len F. revert channel.
  induction draws as [|[r now] draws IH]; intros channel.
  - exists []. simpl. rewrite app_nil_r. split; [constructor|reflexivity].
  - apply Forall_cons in F as [Hr F]. specialize (IH F).
    destruct (FeaturesFacts.tick_in_range json_dumps X y r now channel Len Hr)
      as (t & row & Ht & Hrow & E).
    destruct (IH (channel ++ Features.published json_dumps now t row))
      as (samples & F2 & E').
    exists ((t, row) :: samples). split; [constructor; auto|].
    simpl. unfold bind at 1. simpl in E. rewrite E, E', <- app_assoc.
    reflexivity.
Qed.

Lemma ticks_publish_witness :
  exists samples,
    Forall2 (fun d s => [151; 75]%float !! Z.to_nat (fst d) = Some (fst s)
                        /\ [[0.5; 1.5]; [2.5; 3.5]]%float !! Z.to_nat (fst d)
                           = Some (snd s))
      [(1, 1000%float); (0, 1010%float)] samples
    /\ Features.ticks Json.dumps [[0.5; 1.5]; [2.5; 3.5]]%float [151; 75]%float
         [(1, 1000%float); (0, 1010%float)] []
       = Ok ([] ++
             flat_map (fun ds => Features.published Json.dumps (snd (fst ds))
                                   (fst (snd ds)) (snd (snd ds)))
               (zip [(1, 1000%float); (0, 1010%float)] samples)).
Proof.
  apply (ticks_publish_the_drawn_rows Json.dumps [[0.5; 1.5]; [2.5; 3.5]]%float
           [151; 75]%float [(1, 1000%float); (0, 1010%float)] []).
  - reflexivity.
  - repeat constructor.
Defined.

(** X15: the visualizer writes one file, the image: whatever the
    library calls return, a run of its loop leaves every other path as
    it was, and with it the input it reads; a pass whose calls succeed
    prints the head of the frame and replaces the image, or, when the
    file system refuses the image, prints the failure after the head;
    and a pass repeated on its own result leaves the same files. *)
Theorem visualizer_writes_only_the_image os frame series
    (pd_read_csv : option string -> result frame)
    (iloc_column : frame -> Z -> result series)
    (draw : series -> result string) :
  (forall ios st p,
     p <> components os Plot.png_path ->
     Plot.files frame
       (snd (Plot.loop os frame series pd_read_csv iloc_column draw ios st)) !! p
     = Plot.files frame st !! p)
  /\ (forall ios st,
        Plot.read_input os
          (Plot.files frame
             (snd (Plot.loop os frame series pd_read_csv iloc_column draw ios st)))
        = Plot.read_input os (Plot.files frame st))
  /\ (forall io st df col image,
        pd_read_csv (Plot.read_input os (Plot.files frame st)) = Ok df ->
        iloc_column df 3 = Ok col -> draw col = Ok image ->
        Plot.tick os frame series pd_read_csv iloc_column draw io st
        = (Ok tt,
           if io
           then Plot.State frame
                  (<[components os Plot.png_path := image]> (Plot.files frame st))
                  (Plot.stdout frame st ++ [Plot.Head frame df])
           else Plot.State frame (Plot.files frame st)
                  (Plot.stdout frame st
                   ++ [Plot.Head frame df; Plot.Failure frame OSError])))
  /\ (forall io st,
        Plot.files frame
          (snd (Plot.tick os frame series pd_read_csv iloc_column draw io
                  (snd (Plot.tick os frame series pd_read_csv iloc_column draw
                          io st))))
        = Plot.files frame
            (snd (Plot.tick os frame series pd_read_csv iloc_column draw io st))).
Proof.
  split; [|split; [|split]].
  - intros ios st p H. apply VisualizerFacts.loop_files, H.
  - intros ios st. unfold Plot.read_input.
    apply VisualizerFacts.loop_files, VisualizerFacts.png_is_not_the_input.
  - intros io st df col image E C D.
    rewrite VisualizerFacts.tick_eq, E, C. simpl. rewrite D. reflexivity.
  - intros io st.
    assert (In : Plot.read_input os
                   (Plot.files frame
                      (snd (Plot.tick os frame series pd_read_csv iloc_column
                              draw io st)))
                 = Plot.read_input os (Plot.files frame st)).
    { unfold Plot.read_input.
      apply VisualizerFacts.tick_files, VisualizerFacts.png_is_not_the_input. }
    rewrite (VisualizerFacts.tick_eq os frame series pd_read_csv iloc_column draw
               io (snd _)), In.
    rewrite VisualizerFacts.tick_eq. simpl.
    destruct (pd_read_csv _) as [df|e]; [|reflexivity].
    destruct (do col <- iloc_column df 3; draw col) as [image|e];
      [|reflexivity].
    destruct io; [|reflexivity]. simpl. apply insert_insert_eq.
Qed.

(** X16: the correlator and the visualizer together: when no file is
    at the visualizer's path before the correlator starts, none is there
    after any run of it, whatever rows it wrote; so, reading a missing
    file being an error, every pass of the visualizer prints that
    failure and no image is ever written. *)
Theorem visualizer_never_sees_the_rows os json_loads frame series
    (pd_read_csv : option string -> result frame)
    (iloc_column : frame -> Z -> result series)
    (draw : series -> result string) ds ios fs e :
  Plot.read_input os fs = None ->
  pd_read_csv None = Raise e ->
  Plot.loop os frame series pd_read_csv iloc_column draw ios
    (Plot.State frame
       (files (snd (start_consuming os json_loads ds (State ∅ fs [])))) [])
  = (Ok tt,
     Plot.State frame
       (files (snd (start_consuming os json_loads ds (State ∅ fs []))))
       (List.map (fun _ => Plot.Failure frame e) ios)).
Proof.
  intros N E.
  apply (VisualizerFacts.loop_unreadable os frame series pd_read_csv iloc_column
           draw ios (Plot.State frame _ []) e).
  simpl. unfold Plot.read_input in *.
  destruct (start_consuming_run os json_loads ds (State ∅ fs []))
    as (js & added & _ & O & _).
  rewrite (O _ (VisualizerFacts.correlator_file_is_not_the_input os)).
  simpl. rewrite N. exact E.
Qed.

Lemma visualizer_never_sees_witness :
  Plot.loop Nt string string
    (fun content => match content with
                    | Some text => Ok text
                    | None => Raise OSError
                    end)
    (fun df _ => Ok df) (fun col => Ok col) [true; true]
    (Plot.State string
       (files (snd (start_consuming Nt Json.loads
                      [Delivery "y_true" truth_1000 true;
                       Delivery "y_pred" prediction_1000 true]
                      (State ∅ ∅ [])))) [])
  = (Ok tt,
     Plot.State string
       (files (snd (start_consuming Nt Json.loads
                      [Delivery "y_true" truth_1000 true;
                       Delivery "y_pred" prediction_1000 true]
                      (State ∅ ∅ []))))
       (List.map (fun _ => Plot.Failure string OSError) [true; true])).
Proof.
  apply (visualizer_never_sees_the_rows Nt Json.loads string string
           (fun content => match content with
                           | Some text => Ok text
                           | None => Raise OSError
                           end)
           (fun df _ => Ok df) (fun col => Ok col)
           [Delivery "y_true" truth_1000 true;
            Delivery "y_pred" prediction_1000 true]
           [true; true] ∅ OSError).
  - reflexivity.
  - reflexivity.
Defined.

(** X17: the join by id holds across interleaving: after the first
    half of an id, whatever is delivered in between that brings nothing
    for this id on the two queues, the call that brings the other half,
    when line 16 can render and encode the row and the file system
    grants the write, appends the row of the pair (with the id as the
    second message spells it) and deletes the entry. *)
Theorem pair_is_recorded_across_other_deliveries os json_loads
    first rest second mid1 mid2 v1 v2 k yt yp diff err row st :
  routing_key first = "y_true" /\ routing_key second = "y_pred"
    /\ yt = v1 /\ yp = v2
  \/ routing_key first = "y_pred" /\ routing_key second = "y_true"
     /\ yt = v2 /\ yp = v1 ->
  accepted json_loads (body first) mid1 v1 ->
  accepted json_loads (body second) mid2 v2 ->
  key_of mid1 = Ok k -> key_of mid2 = Ok k -> data st !! k = None ->
  Forall (fun d => forall v, carries json_loads d k v ->
            routing_key d <> "y_true" /\ routing_key d <> "y_pred") rest ->
  io_ok second = Granted -> sub yt yp = Ok diff -> abs diff = Ok err ->
  csv_row mid2 yt yp err = Some (Ok row) -> encode row = Ok row ->
  snd (start_consuming os json_loads (first :: rest ++ [second]) st)
  = State
      (delete k (data (snd (start_consuming os json_loads
                              (first :: rest) st))))
      (file_append os (csv_path os) row
         (files (snd (start_consuming os json_loads (first :: rest) st))))
      (journal (snd (start_consuming os json_loads (first :: rest) st))
       ++ [InfoRecorded mid2 err]).
Proof.
  intros Rk A1 A2 K1 K2 L F Io S A R En.
  rewrite (pair_settled_after os json_loads first rest second mid1 mid2 v1 v2
             k yt yp diff err st Rk A1 A2 K1 K2 L F S A).
  rewrite Io, (log_error_to_csv_granted os mid2 yt yp err row _ R En).
  reflexivity.
Qed.

Lemma pair_across_witness :
  snd (start_consuming Nt Json.loads
         (Delivery "y_true" truth_1000 true
          :: [target_7; listed_prediction_7]
          ++ [Delivery "y_pred" prediction_1000 true]) initial)
  = State
      (delete (KInt 1000)
         (data (snd (start_consuming Nt Json.loads
                       (Delivery "y_true" truth_1000 true
                        :: [target_7; listed_prediction_7]) initial))))
      (file_append Nt (csv_path Nt) ("1000.0,42.0,40.5,1.5" +:+ nl)
         (files (snd (start_consuming Nt Json.loads
                        (Delivery "y_true" truth_1000 true
                         :: [target_7; listed_prediction_7]) initial))))
      (journal (snd (start_consuming Nt Json.loads
                       (Delivery "y_true" truth_1000 true
                        :: [target_7; listed_prediction_7]) initial))
       ++ [InfoRecorded (PFloat 1000) (PFloat 1.5)]).
Proof.
  apply (pair_is_recorded_across_other_deliveries Nt Json.loads
           (Delivery "y_true" truth_1000 true)
           [target_7; listed_prediction_7]
           (Delivery "y_pred" prediction_1000 true)
           (PFloat 1000) (PFloat 1000) (PFloat 42) (PFloat 40.5) (KInt 1000)
           (PFloat 42) (PFloat 40.5) (PFloat 1.5) (PFloat 1.5)
           ("1000.0,42.0,40.5,1.5" +:+ nl) initial).
  - left. repeat split; reflexivity.
  - exists (PDict [("id", PFloat 1000); ("body", PFloat 42)]).
    repeat split; vm_compute; reflexivity.
  - exists (PDict [("id", PFloat 1000); ("prediction", PFloat 40.5)]).
    repeat split; vm_compute; reflexivity.
  - vm_compute; reflexivity.
  - vm_compute; reflexivity.
  - reflexivity.
  - constructor; [|constructor; [|constructor]];
      intros v' (mid & (m & E & I & _) & K);
      vm_compute in E; inversion E; subst m;
      vm_compute in I; inversion I; subst mid;
      vm_compute in K; discriminate.
  - reflexivity.
  - reflexivity.
  - reflexivity.
  - vm_compute; reflexivity.
  - vm_compute; reflexivity.
Defined.

(** X18: a row needs both queues: over a run with no delivery on
    [y_pred], from a state where no entry holds a prediction, no file
    changes and nothing is recorded, and still no entry holds a
    prediction; and the same with [y_true] and the ground truths. *)
Theorem a_row_needs_both_queues os json_loads r ds st :
  Forall (fun d => routing_key d <> queue_of r) ds ->
  lacks r (data st) ->
  lacks r (data (snd (start_consuming os json_loads ds st)))
  /\ files (snd (start_consuming os json_loads ds st)) = files st
  /\ records (journal (snd (start_consuming os json_loads ds st)))
     = records (journal st).
Proof.
  revert st. induction ds as [|d ds IH]; intros st F H; [auto|].
  apply Forall_cons in F as [Hd F]. rewrite start_consuming_cons.
  destruct (process_message_lacks os json_loads r (routing_key d) (body d)
              (io_ok d) st Hd H) as (H1 & F1 & R1).
  destruct (IH _ F H1) as (H2 & F2 & R2).
  rewrite F2, R2. auto.
Qed.

Lemma a_row_needs_witness :
  lacks Prediction
    (data (snd (start_consuming Nt Json.loads
                  [Delivery "y_true" truth_1000 true; target_7] initial)))
  /\ files (snd (start_consuming Nt Json.loads
                   [Delivery "y_true" truth_1000 true; target_7] initial))
     = files initial
  /\ records (journal (snd (start_consuming Nt Json.loads
                              [Delivery "y_true" truth_1000 true; target_7]
                              initial)))
     = records (journal initial).
Proof.
  apply (a_row_needs_both_queues Nt Json.loads Prediction
           [Delivery "y_true" truth_1000 true; target_7] initial).
  - repeat constructor; discriminate.
  - intros k e L. simpl in L. rewrite lookup_empty in L. discriminate.
Defined.

(** X19: the producer alone never makes the correlator write: whatever
    the broker delivers of what the producer's loop published, in any
    order and any number of times and with any body, the correlator
    started on the empty map leaves the files as they were and records
    nothing; every message of the producer goes to [y_true] or to
    [features], none to [y_pred]. *)
Theorem producer_alone_records_nothing os json_loads json_dumps X y draws
    out ds fs :
  Features.ticks json_dumps X y draws [] = Ok out ->
  Forall (fun d => exists p, p ∈ out
                             /\ routing_key d = Features.routing_key p) ds ->
  Forall (fun p => Features.routing_key p = "y_true"
                   \/ Features.routing_key p = "features") out
  /\ files (snd (start_consuming os json_loads ds (State ∅ fs []))) = fs
  /\ records (journal (snd (start_consuming os json_loads ds (State ∅ fs []))))
     = [].
Proof.
  intros T F.
  pose proof (ProducerFacts.ticks_routing_keys json_dumps X y draws [] out T
                ltac:(constructor)) as Q.
  split; [exact Q|].
  apply (start_consuming_lacks os json_loads Prediction ds (State ∅ fs [])).
  - apply Forall_forall. intros d Hd.
    destruct (proj1 (Forall_forall _ _) F d Hd) as (p & Hp & ->).
    destruct (proj1 (Forall_forall _ _) Q p Hp) as [->| ->]; discriminate.
  - intros k e L. simpl in L. rewrite lookup_empty in L. discriminate.
Qed.

Lemma producer_alone_witness :
  Forall (fun p => Features.routing_key p = "y_true"
                   \/ Features.routing_key p = "features")
    (Features.published Json.dumps 1000 75 [2.5; 3.5]%float)
  /\ files (snd (start_consuming Nt Json.loads
                   [Delivery "features"
                      (Json.payload "{'id': 1000.0, 'body': [2.5, 3.5]}") true;
                    Delivery "y_true"
                      (Json.payload "{'id': 1000.0, 'body': 75.0}") true]
                   (State ∅ ∅ []))) = ∅
  /\ records (journal (snd (start_consuming Nt Json.loads
                              [Delivery "features"
                                 (Json.payload
                                    "{'id': 1000.0, 'body': [2.5, 3.5]}") true;
                               Delivery "y_true"
                                 (Json.payload "{'id': 1000.0, 'body': 75.0}")
                                 true]
                              (State ∅ ∅ []))))
     = [].
Proof.
  apply (producer_alone_records_nothing Nt Json.loads Json.dumps
           [[0.5; 1.5]; [2.5; 3.5]]%float [151; 75]%float [(1, 1000%float)]
           (Features.published Json.dumps 1000 75 [2.5; 3.5]%float)).
  - reflexivity.
  - constructor; [|constructor; [|constructor]].
    + eexists. split; [apply list_elem_of_further, list_elem_of_here|].
      reflexivity.
    + eexists. split; [apply list_elem_of_here|]. reflexivity.
Defined.

(** X20: a row of floats is always written: for a float id and float
    values, the f-string of line 16 renders without raising, the row is
    made of ASCII characters, so it encodes, and it has four fields. *)
Theorem float_rows_are_written i a b e :
  exists fi fa fb fe,
    csv_row (PFloat i) (PFloat a) (PFloat b) (PFloat e)
    = Some (Ok (fi +:+ "," +:+ fa +:+ "," +:+ fb +:+ "," +:+ fe +:+ nl))
    /\ encode (fi +:+ "," +:+ fa +:+ "," +:+ fb +:+ "," +:+ fe +:+ nl)
       = Ok (fi +:+ "," +:+ fa +:+ "," +:+ fb +:+ "," +:+ fe +:+ nl)
    /\ Plot.fields (fi +:+ "," +:+ fa +:+ "," +:+ fb +:+ "," +:+ fe)
       = [fi; fa; fb; fe].
Proof.
  exists (float_repr i), (float_repr a), (float_repr b), (float_repr e).
  split; [reflexivity|]. split.
  - unfold encode. rewrite RenderFacts.has_surrogate_ascii; [reflexivity|].
    rewrite !RenderFacts.string_forall_app,
      !(RenderFacts.string_forall_float_repr _ RenderFacts.ascii_characters).
    reflexivity.
  - apply RenderFacts.fields_four;
      apply (RenderFacts.string_forall_float_repr _
               RenderFacts.plain_characters).
Qed.

End Properties.
